(** * modular_sql_client: the query execution core

    A shallow embedding of [database.py] (the worker [RunnableQuery]) and of
    the query bookkeeping of [ui/main_window.py] ([MainWindow.execute_query],
    the result, error and timeout handlers, [cancel_current_query],
    [close_tab]), followed by the properties of the specification.

    Conventions.
    - A Python [str] is a Rocq [string]; a character is read as a code point
      below 256.
    - The drivers ([sqlite3], [psycopg2]) are not part of the repository: what
      they answer in one run is a record of type [Driver].  A call to
      [close] is taken to return normally.
    - Of the window, the dictionaries, timers and labels that the query
      handlers read or write are kept; widget look-ups ([findChild]) find what
      [add_tab] created, and [refresh_all_comboboxes] is left out.
    - The worker runs on a pool thread while [cancel] runs on the GUI thread.
      Every read of [_is_cancelled] in [run] is stamped with the source line
      it is written on (55, 76, 85, 96, 104 in the body, 116 and 119 in the
      handlers); these stamps increase along every control path.  A run is
      parameterised by [cancel_at]: [Some t] says that [cancel] set the flag
      after every read stamped below [t] and before every read stamped [t] or
      more; [None] says that the flag is never set during the run. *)

From Stdlib Require Import ZArith NArith Bool Ascii String.
From stdpp Require Import base gmap strings list.

Local Open Scope string_scope.
Local Open Scope list_scope.

(** ** Python string operations used by the sources *)
Module PyStr.

Definition code (c : ascii) : N := N_of_ascii c.

(** [str.isspace] on the code points below 256. *)
Definition isspace (c : ascii) : bool :=
  let n := code c in
  (((9 <=? n) && (n <=? 13)) || ((28 <=? n) && (n <=? 32))
   || (n =? 133) || (n =? 160))%N.

(** [str.lower] on one code point below 256: A-Z and the Latin-1 capitals. *)
Definition lower_char (c : ascii) : ascii :=
  let n := code c in
  if (((65 <=? n) && (n <=? 90))
      || ((192 <=? n) && (n <=? 222) && negb (n =? 215)))%N
  then ascii_of_N (n + 32) else c.

Fixpoint lower (s : string) : string :=
  match s with
  | EmptyString => EmptyString
  | String c r => String (lower_char c) (lower r)
  end.

Fixpoint lstrip (s : string) : string :=
  match s with
  | EmptyString => EmptyString
  | String c r => if isspace c then lstrip r else s
  end.

Fixpoint rstrip (s : string) : string :=
  match s with
  | EmptyString => EmptyString
  | String c r =>
      match rstrip r with
      | EmptyString => if isspace c then EmptyString else String c EmptyString
      | r' => String c r'
      end
  end.

(** [s.strip()] *)
Definition strip (s : string) : string := rstrip (lstrip s).

(** [s.startswith(p)] *)
Definition startswith (s p : string) : bool := String.prefix p s.

(** [needle in hay] *)
Fixpoint contains (needle hay : string) : bool :=
  String.prefix needle hay
  || match hay with
     | EmptyString => false
     | String _ r => contains needle r
     end.

End PyStr.

(** ** database.py *)
Module Database.

(** The values a connection descriptor holds (rows of the catalog). *)
Inductive PyVal :=
| PyNone
| PyStr (s : string)
| PyInt (n : Z).

Definition truthy (v : PyVal) : bool :=
  match v with
  | PyNone => false
  | PyStr s => negb (String.eqb s "")
  | PyInt n => negb (n =? 0)%Z
  end.

(** Exception classes, as far as the [except] clauses of [run] tell them
    apart. *)
Inductive ExcClass :=
| ConnectionError
| KeyError
| TypeError
| ValueError
| SqliteOperationalError      (* sqlite3.OperationalError *)
| PgQueryCanceled             (* psycopg2.errors.QueryCanceled *)
| OtherException.

(** An exception object: its class and [str(e)]. *)
Record PyExc := { exc_class : ExcClass; exc_str : string }.

Inductive ConnKind := SqliteConn | PgConn.

Definition Row := list string.

(** What the drivers answer during one run.  [None] in an [option PyExc]
    means that the call returns normally. *)
Record Driver := {
  sqlite_connect : PyVal -> option PyExc;
  pg_connect : PyVal -> PyVal -> PyVal -> PyVal -> Z -> option PyExc;
  int_of_str : string -> Z + PyExc;           (* builtin int() on a str *)
  cursor : option PyExc;
  execute : string -> option PyExc;
  description : option (list string);         (* desc[0] of each column *)
  fetchall : list Row + PyExc;
  commit : option PyExc;
  rowcount : Z;
  time_start : Z;                             (* time.time() at line 58 *)
  time_end : Z                                (* time.time() at line 107 *)
}.

(** What [run] does, in order. *)
Inductive Op :=
| SqliteConnect (path : PyVal)
| PgConnect (host database user password : PyVal) (port : Z)
| Close                                        (* local_conn.close() *)
| Publish (k : ConnKind)                       (* self.conn = local_conn *)
| Unpublish                                    (* self.conn = None *)
| Cursor
| Execute (q : string)
| Fetchall
| Commit
| EmitFinished (results : list Row) (columns : list string)
               (row_count elapsed : Z) (is_select_query : bool)
| EmitError (msg : string).

(** *** A monad for the body of [try]: the trace written so far, the local
    variable [local_conn], and how the block is left. *)
Inductive Exit :=
| Return_
| Raise (e : PyExc).

Definition M (A : Type) : Type :=
  option ConnKind -> list Op * option ConnKind * (A + Exit).

Definition ret {A} (a : A) : M A := fun lc => ([], lc, inl a).

Definition bind {A B} (c : M A) (k : A -> M B) : M B :=
  fun lc =>
    match c lc with
    | (tr, lc', inl a) =>
        match k a lc' with
        | (tr', lc'', r) => (tr ++ tr', lc'', r)
        end
    | (tr, lc', inr x) => (tr, lc', inr x)
    end.

Definition leave {A} (x : Exit) : M A := fun lc => ([], lc, inr x).
Definition raise {A} (e : PyExc) : M A := leave (Raise e).
Definition do (o : Op) : M unit := fun lc => ([o], lc, inl tt).
Definition set_local_conn (k : ConnKind) : M unit := fun _ => ([], Some k, inl tt).

(** A driver call: the call is made, then it returns or raises. *)
Definition call (o : Op) (answer : option PyExc) : M unit :=
  bind (do o) (fun _ => match answer with None => ret tt | Some e => raise e end).

Definition lift {A} (r : A + PyExc) : M A :=
  match r with inl a => ret a | inr e => raise e end.

Declare Scope run_scope.
Delimit Scope run_scope with run.
Notation "x <- c ;; k" := (bind c (fun x => k))
  (at level 100, c at next level, k at level 200) : run_scope.
Notation "c ;; k" := (bind c (fun _ => k))
  (at level 100, k at level 200) : run_scope.

Definition is_connect (o : Op) : bool :=
  match o with
  | SqliteConnect _ | PgConnect _ _ _ _ _ => true
  | _ => false
  end.

(** The signals a trace emits. *)
Definition is_signal (o : Op) : bool :=
  match o with
  | EmitFinished _ _ _ _ _ | EmitError _ => true
  | _ => false
  end.

Definition signals (tr : list Op) : list Op := List.filter is_signal tr.

Section Run.

Variable driver : Driver.
Variable conn_data : option (gmap string PyVal).   (* None is Python's None *)
Variable query : string.
Variable cancel_at : option nat.

(** The value of [self._is_cancelled] read at source line [line]. *)
Definition is_cancelled (line : nat) : bool :=
  match cancel_at with
  | Some t => (t <=? line)%nat
  | None => false
  end.

(** [not self.conn_data] *)
Definition conn_data_falsy : bool :=
  match conn_data with
  | None => true
  | Some d => bool_decide (d = ∅)
  end.

(** [self.conn_data[k]] *)
Definition getitem (k : string) : PyVal + PyExc :=
  match conn_data with
  | Some d =>
      match d !! k with
      | Some v => inl v
      | None => inr {| exc_class := KeyError; exc_str := "'" +:+ k +:+ "'" |}
      end
  | None => inr {| exc_class := TypeError;
                   exc_str := "'NoneType' object is not subscriptable" |}
  end.

(** ["db_path" in self.conn_data and self.conn_data["db_path"]], lines 62-63 *)
Definition db_type : ConnKind :=
  match conn_data with
  | Some d =>
      match d !! "db_path" with
      | Some v => if truthy v then SqliteConn else PgConn
      | None => PgConn
      end
  | None => PgConn
  end.

(** [int(v)] *)
Definition py_int (v : PyVal) : Z + PyExc :=
  match v with
  | PyInt n => inl n
  | PyStr s => int_of_str driver s
  | PyNone =>
      inr {| exc_class := TypeError;
             exc_str := "int() argument must be a string, a bytes-like object or a real number, not 'NoneType'" |}
  end.

(** [self.query.lower().strip().startswith("select")], line 89 *)
Definition is_select_query : bool :=
  PyStr.startswith (PyStr.strip (PyStr.lower query)) "select".

(** [if cursor.description:] *)
Definition description_truthy : bool :=
  match description driver with
  | Some (_ :: _) => true
  | _ => false
  end.

Definition description_names : list string :=
  match description driver with
  | Some l => l
  | None => []
  end.

Local Open Scope run_scope.

(** Lines 65-72. *)
Definition connect : M unit :=
  match db_type with
  | SqliteConn =>
      path <- lift (getitem "db_path") ;;
      call (SqliteConnect path) (sqlite_connect driver path) ;;
      set_local_conn SqliteConn
  | PgConn =>
      host <- lift (getitem "host") ;;
      database <- lift (getitem "database") ;;
      user <- lift (getitem "user") ;;
      password <- lift (getitem "password") ;;
      port_v <- lift (getitem "port") ;;
      port <- lift (py_int port_v) ;;
      call (PgConnect host database user password port)
           (pg_connect driver host database user password port) ;;
      set_local_conn PgConn
  end.

(** [cursor.rowcount if cursor.rowcount != -1 else 0], line 101 *)
Definition clamped_rowcount : Z :=
  if (rowcount driver =? -1)%Z then 0%Z else rowcount driver.

(** Lines 88-101: the results, the columns and the row count. *)
Definition collect : M (list Row * list string * Z) :=
  if is_select_query then
    if description_truthy then
      if negb (is_cancelled 96) then
        do Fetchall ;;
        results <- lift (fetchall driver) ;;
        ret (results, description_names, Z.of_nat (length results))
      else ret ([], description_names, 0%Z)
    else ret ([], [], 0%Z)
  else
    call Commit (commit driver) ;;
    ret ([], [], clamped_rowcount).

(** [ConnectionError("Incomplete connection information.")], line 60 *)
Definition conn_error : PyExc :=
  {| exc_class := ConnectionError;
     exc_str := "Incomplete connection information." |}.

(** [self.signals.finished.emit(...)], lines 107-109 *)
Definition finished (r : list Row * list string * Z) : Op :=
  let '(results, columns, row_count) := r in
  EmitFinished results columns row_count
    (time_end driver - time_start driver) is_select_query.

(** The body of [try], lines 54-109. *)
Definition run_try : M unit :=
  (if is_cancelled 55 then leave Return_ else ret tt) ;;
  (if conn_data_falsy then raise conn_error else ret tt) ;;
  connect ;;
  (if is_cancelled 76 then do Close ;; leave Return_
   else do (Publish db_type)) ;;
  call Cursor (cursor driver) ;;
  call (Execute query) (execute driver query) ;;
  (if is_cancelled 85 then leave Return_ else ret tt) ;;
  r <- collect ;;
  (if is_cancelled 104 then leave Return_ else ret tt) ;;
  do (finished r).

(** The first [except] clause catches these classes, line 111. *)
Definition is_cancel_class (e : PyExc) : bool :=
  match exc_class e with
  | SqliteOperationalError | PgQueryCanceled => true
  | _ => false
  end.

(** Line 113. *)
Definition message_sniffed (e : PyExc) : bool :=
  PyStr.contains "interrupted" (PyStr.lower (exc_str e))
  || PyStr.contains "canceled" (PyStr.lower (exc_str e)).

(** The two [except] clauses, lines 111-120. *)
Definition handler (e : PyExc) : list Op :=
  if is_cancel_class e then
    if message_sniffed e then []
    else if negb (is_cancelled 116) then [EmitError (exc_str e)] else []
  else
    if negb (is_cancelled 119) then [EmitError (exc_str e)] else [].

(** The [finally] clause, lines 121-125. *)
Definition finally (local_conn : option ConnKind) : list Op :=
  Unpublish :: match local_conn with Some _ => [Close] | None => [] end.

(** [RunnableQuery.run]: everything the worker does, in order. *)
Definition run : list Op :=
  match run_try None with
  | (tr, local_conn, r) =>
      tr ++ match r with inr (Raise e) => handler e | _ => [] end
         ++ finally local_conn
  end.

(** *** The paths of [run], written out

    [run] again, as the list of what happens after each point where the
    body may be left; [run_eq] below proves it equal to [run]. *)

(** From line 88 on, once [cursor.execute] has returned. *)
Definition after_execute (lc : option ConnKind) : list Op :=
  if is_cancelled 85 then finally lc
  else match collect lc with
       | (tr, lc', inl r) =>
           tr ++ (if is_cancelled 104 then [] else [finished r])
              ++ finally lc'
       | (tr, lc', inr Return_) => tr ++ finally lc'
       | (tr, lc', inr (Raise e)) => tr ++ handler e ++ finally lc'
       end.

(** From line 75 on, once a connection is held. *)
Definition after_connect (lc : option ConnKind) : list Op :=
  if is_cancelled 76 then Close :: finally lc
  else
    Publish db_type :: Cursor ::
    match cursor driver with
    | Some e => handler e ++ finally lc
    | None =>
        Execute query ::
        match execute driver query with
        | Some e => handler e ++ finally lc
        | None => after_execute lc
        end
    end.

(** What [connect] can answer: it makes at most one call, a connect call,
    and a connection is held exactly when that call returns. *)
Inductive connect_result (lc : option ConnKind)
  : list Op * option ConnKind * (unit + Exit) -> Prop :=
| connected o :
    is_connect o = true ->
    connect_result lc ([o], Some db_type, inl tt)
| connect_raised o e :
    is_connect o = true ->
    connect_result lc ([o], lc, inr (Raise e))
| arguments_raised e :
    connect_result lc ([], lc, inr (Raise e)).

(** How the [try] body can end: left early with nothing emitted, or run
    to its last line, where [finished] is emitted. *)
Inductive try_result : list Op * option ConnKind * (unit + Exit) -> Prop :=
| try_left tr lc x : signals tr = [] -> try_result (tr, lc, inr x)
| try_done tr lc r :
    is_cancelled 104 = false ->
    signals tr = [] -> try_result (tr ++ [finished r], lc, inl tt).

(** The exception that leaves the [try] body, if any. *)
Definition raised : option PyExc :=
  match run_try None with
  | (_, _, inr (Raise e)) => Some e
  | _ => None
  end.

End Run.

Definition is_close (o : Op) : bool :=
  match o with Close => true | _ => false end.

Definition is_unpublish (o : Op) : bool :=
  match o with Unpublish => true | _ => false end.

Definition count (p : Op -> bool) (tr : list Op) : nat :=
  length (List.filter p tr).

(** *** [RunnableQuery.cancel], lines 33-49, on the two fields it touches. *)
Record TaskState := { _is_cancelled : bool; conn : option ConnKind }.

Inductive AbortOp :=
| ConnCancel          (* psycopg2: self.conn.cancel() *)
| ConnInterrupt.      (* sqlite3: self.conn.interrupt() *)

Definition cancel (t : TaskState) : TaskState * list AbortOp :=
  ({| _is_cancelled := true; conn := conn t |},
   match conn t with
   | Some PgConn => [ConnCancel]
   | Some SqliteConn => [ConnInterrupt]
   | None => []
   end).

End Database.

(** ** ui/main_window.py: the bookkeeping of running queries *)
Module MainWindow.
Import Database.

Definition QUERY_TIMEOUT : Z := 60000.

(** A [RunnableQuery] object, by the fields the window and [cancel] use. *)
Record Runnable := {
  r_conn_data : option (gmap string PyVal);
  r_query : string;
  r_task : TaskState
}.

(** An entry of [self.tab_timers]. *)
Record TimerEntry := { timer : nat; start_time : Z; timeout_timer : nat }.

(** The texts written to a tab's [tab_status_label]. *)
Inductive StatusText :=
| Waiting                                 (* "Waiting for query to complete..." *)
| QueryOk (row_count elapsed : Z)         (* "Query executed successfully | ..." *)
| CommandOk (row_count elapsed : Z)       (* "Command executed successfully | ..." *)
| ErrorText (msg : string)                (* "Error: {msg}" *)
| TimedOutText (ms : Z)                   (* "Error: Query Timed Out after {ms / 1000} seconds." *)
| CancelledText.                          (* "Query cancelled by user." *)

(** What a handler shows or asks of a driver. *)
Inductive Effect :=
| SetTabStatus (tab : nat) (text : StatusText)   (* tab_status_label.setText *)
| SetStatusMessage (text : string)               (* status_message_label.setText *)
| ShowMessage (text : string)                    (* self.status.showMessage *)
| MessageBox (title : string)                    (* QMessageBox.warning / critical *)
| SetTable (tab : nat) (columns : list string) (rows : list Row)
| Abort (runnable : nat) (o : AbortOp).

(** The window.  Tabs, runnables and timers are objects; they are named by
    numbers, so that a dictionary keyed by a tab is a [gmap nat] and
    [is runnable] is equality of names. *)
Record Window := {
  tabs : list nat;                       (* the widgets of tab_widget, by index *)
  running_queries : gmap nat nat;        (* tab -> runnable *)
  tab_timers : gmap nat TimerEntry;      (* tab -> its timers *)
  active_timers : gset nat;              (* the QTimers that are started *)
  timeout_slot : gmap nat (nat * nat);   (* timeout timer -> (tab, runnable) of its slot *)
  runnables : gmap nat Runnable;         (* the RunnableQuery objects *)
  pool : list nat;                       (* runnables given to thread_pool.start *)
  cancel_enabled : bool;                 (* cancel_action.isEnabled() *)
  spinning : gset nat;                   (* tabs that show the spinner *)
  next_id : nat                          (* the next fresh object name *)
}.

Definition set_running_queries (m : gmap nat nat) (w : Window) : Window :=
  {| tabs := tabs w; running_queries := m; tab_timers := tab_timers w;
     active_timers := active_timers w; timeout_slot := timeout_slot w;
     runnables := runnables w; pool := pool w;
     cancel_enabled := cancel_enabled w; spinning := spinning w;
     next_id := next_id w |}.

Definition set_tab_timers (m : gmap nat TimerEntry) (w : Window) : Window :=
  {| tabs := tabs w; running_queries := running_queries w; tab_timers := m;
     active_timers := active_timers w; timeout_slot := timeout_slot w;
     runnables := runnables w; pool := pool w;
     cancel_enabled := cancel_enabled w; spinning := spinning w;
     next_id := next_id w |}.

Definition set_active_timers (s : gset nat) (w : Window) : Window :=
  {| tabs := tabs w; running_queries := running_queries w;
     tab_timers := tab_timers w; active_timers := s;
     timeout_slot := timeout_slot w; runnables := runnables w; pool := pool w;
     cancel_enabled := cancel_enabled w; spinning := spinning w;
     next_id := next_id w |}.

Definition set_runnables (m : gmap nat Runnable) (w : Window) : Window :=
  {| tabs := tabs w; running_queries := running_queries w;
     tab_timers := tab_timers w; active_timers := active_timers w;
     timeout_slot := timeout_slot w; runnables := m; pool := pool w;
     cancel_enabled := cancel_enabled w; spinning := spinning w;
     next_id := next_id w |}.

Definition set_cancel_enabled (b : bool) (w : Window) : Window :=
  {| tabs := tabs w; running_queries := running_queries w;
     tab_timers := tab_timers w; active_timers := active_timers w;
     timeout_slot := timeout_slot w; runnables := runnables w; pool := pool w;
     cancel_enabled := b; spinning := spinning w; next_id := next_id w |}.

Definition set_spinning (s : gset nat) (w : Window) : Window :=
  {| tabs := tabs w; running_queries := running_queries w;
     tab_timers := tab_timers w; active_timers := active_timers w;
     timeout_slot := timeout_slot w; runnables := runnables w; pool := pool w;
     cancel_enabled := cancel_enabled w; spinning := s; next_id := next_id w |}.

Definition set_tabs (l : list nat) (w : Window) : Window :=
  {| tabs := l; running_queries := running_queries w;
     tab_timers := tab_timers w; active_timers := active_timers w;
     timeout_slot := timeout_slot w; runnables := runnables w; pool := pool w;
     cancel_enabled := cancel_enabled w; spinning := spinning w;
     next_id := next_id w |}.

(** [MainWindow.__init__] followed by its [add_tab()]: one worksheet, tab 0. *)
Definition init : Window :=
  {| tabs := [0]; running_queries := ∅; tab_timers := ∅; active_timers := ∅;
     timeout_slot := ∅; runnables := ∅; pool := []; cancel_enabled := false;
     spinning := ∅; next_id := 1 |}.

(** [runnable.cancel()] on the object named [r]. *)
Definition cancel_runnable (r : nat) (w : Window) : Window * list Effect :=
  match runnables w !! r with
  | Some o =>
      let '(t, ops) := cancel (r_task o) in
      (set_runnables (<[r := {| r_conn_data := r_conn_data o;
                                r_query := r_query o; r_task := t |}]>
                        (runnables w)) w,
       Abort r <$> ops)
  | None => (w, [])
  end.

(** [if not self.running_queries: self.cancel_action.setEnabled(False)] *)
Definition disable_cancel_if_idle (w : Window) : Window :=
  if decide (running_queries w = ∅) then set_cancel_enabled false w else w.

(** [if tab in self.running_queries: del self.running_queries[tab]] *)
Definition del_running (tab : nat) (w : Window) : Window :=
  set_running_queries (delete tab (running_queries w)) w.

(** [stop_spinner], lines 616-625 *)
Definition stop_spinner (tab : nat) (w : Window) : Window :=
  set_spinning (spinning w ∖ {[tab]}) w.

(** Lines 567-570 (also 598-601 and 651-654): stop both timers of the tab
    and drop its entry. *)
Definition stop_and_del_timers (tab : nat) (w : Window) : Window :=
  match tab_timers w !! tab with
  | Some e =>
      set_tab_timers (delete tab (tab_timers w))
        (set_active_timers
           (active_timers w ∖ {[timer e]} ∖ {[timeout_timer e]}) w)
  | None => w
  end.

(** Lines 631-633: stop the progress timer only and drop the entry. *)
Definition stop_progress_and_del_timers (tab : nat) (w : Window) : Window :=
  match tab_timers w !! tab with
  | Some e =>
      set_tab_timers (delete tab (tab_timers w))
        (set_active_timers (active_timers w ∖ {[timer e]}) w)
  | None => w
  end.

(** [execute_query], lines 503-557.  [current_tab] is
    [tab_widget.currentWidget()]; [editor] and [combo] are the texts of the
    tab's query editor and of its connection combo box, [item_data] the
    descriptor attached to the selected combo item, [now] is [time.time()]. *)
Definition execute_query (current_tab : option nat) (editor combo : string)
    (item_data : option (gmap string PyVal)) (now : Z) (w : Window)
  : Window * list Effect :=
  match current_tab with
  | None => (w, [])
  | Some tab =>
      if decide (is_Some (running_queries w !! tab))
      then (w, [MessageBox "Query in Progress"])
      else
        let query := PyStr.strip editor in
        if String.eqb combo "" || String.eqb query ""
        then (w, [ShowMessage "Database or query is empty"])
        else
          let progress_timer := next_id w in
          let timeout_timer_ := S (next_id w) in
          let runnable := S (S (next_id w)) in
          ({| tabs := tabs w;
              running_queries := <[tab := runnable]> (running_queries w);
              tab_timers :=
                <[tab := {| timer := progress_timer; start_time := now;
                            timeout_timer := timeout_timer_ |}]> (tab_timers w);
              active_timers :=
                {[progress_timer]} ∪ {[timeout_timer_]} ∪ active_timers w;
              timeout_slot :=
                <[timeout_timer_ := (tab, runnable)]> (timeout_slot w);
              runnables :=
                <[runnable := {| r_conn_data := item_data; r_query := query;
                                 r_task := {| _is_cancelled := false;
                                              conn := None |} |}]>
                  (runnables w);
              pool := pool w ++ [runnable];
              cancel_enabled := true;
              spinning := {[tab]} ∪ spinning w;
              next_id := S (S (S (next_id w))) |},
           [ShowMessage "New query thread started...";
            SetStatusMessage "Executing query...";
            SetTabStatus tab Waiting])
  end.

(** [handle_query_result], lines 566-595. *)
Definition handle_query_result (target_tab : nat) (results : list Row)
    (columns : list string) (row_count elapsed_time : Z)
    (is_select_query : bool) (w : Window) : Window * list Effect :=
  let w1 := stop_and_del_timers target_tab w in
  let shown :=
    if is_select_query
    then [SetTable target_tab columns results;
          SetTabStatus target_tab (QueryOk row_count elapsed_time)]
    else [SetTable target_tab [] [];
          SetTabStatus target_tab (CommandOk row_count elapsed_time)] in
  let w2 := stop_spinner target_tab w1 in
  let w3 := del_running target_tab w2 in
  (disable_cancel_if_idle w3, shown ++ [SetStatusMessage "Ready"]).

(** [handle_query_error], lines 597-614. *)
Definition handle_query_error (target_tab : nat) (error_message : string)
    (w : Window) : Window * list Effect :=
  let w1 := stop_and_del_timers target_tab w in
  let w2 := stop_spinner target_tab w1 in
  let w3 := del_running target_tab w2 in
  (disable_cancel_if_idle w3,
   [SetTabStatus target_tab (ErrorText error_message);
    SetStatusMessage "Error occurred";
    MessageBox "Query Execution Error"]).

(** [handle_query_timeout], lines 627-644. *)
Definition handle_query_timeout (tab runnable : nat) (w : Window)
  : Window * list Effect :=
  if decide (running_queries w !! tab = Some runnable) then
    let '(w1, aborts) := cancel_runnable runnable w in
    let w2 := stop_spinner tab w1 in
    let w3 := stop_progress_and_del_timers tab w2 in
    let w4 := del_running tab w3 in
    (disable_cancel_if_idle w4,
     aborts ++ [SetTabStatus tab (TimedOutText QUERY_TIMEOUT);
                SetStatusMessage "Error occurred";
                MessageBox "Query Timeout"])
  else (w, []).

(** [cancel_current_query], lines 646-663. *)
Definition cancel_current_query (current_tab : option nat) (w : Window)
  : Window * list Effect :=
  match current_tab with
  | None => (w, [])
  | Some tab =>
      match running_queries w !! tab with
      | Some runnable =>
          let '(w1, aborts) := cancel_runnable runnable w in
          let w2 := stop_and_del_timers tab w1 in
          let w3 := stop_spinner tab w2 in
          let w4 := del_running tab w3 in
          (disable_cancel_if_idle w4,
           aborts ++ [SetTabStatus tab CancelledText;
                      SetStatusMessage "Query Cancelled"])
      | None => (w, [])
      end
  end.

(** [close_tab], lines 229-245. *)
Definition close_tab (index : nat) (w : Window) : Window * list Effect :=
  match tabs w !! index with
  | None =>
      if decide (1 < length (tabs w)) then (w, [])
      else (w, [ShowMessage "Must keep at least one tab"])
  | Some tab =>
      let '(w2, aborts) :=
        match running_queries w !! tab with
        | Some runnable =>
            let '(w1, aborts) := cancel_runnable runnable w in
            (disable_cancel_if_idle (del_running tab w1), aborts)
        | None => (w, [])
        end in
      let w3 := stop_and_del_timers tab w2 in
      if decide (1 < length (tabs w3))
      then (set_tabs (take index (tabs w3) ++ drop (S index) (tabs w3)) w3,
            aborts)
      else (w3, aborts ++ [ShowMessage "Must keep at least one tab"])
  end.

(** The single-shot timeout timer [t] fires: it stops being active and its
    slot, [partial(self.handle_query_timeout, current_tab, runnable)], runs. *)
Definition fire_timeout (t : nat) (w : Window) : Window * list Effect :=
  if decide (t ∈ active_timers w) then
    match timeout_slot w !! t with
    | Some (tab, runnable) =>
        handle_query_timeout tab runnable
          (set_active_timers (active_timers w ∖ {[t]}) w)
    | None => (w, [])
    end
  else (w, []).

(** A signal of the worker reaches its slot,
    [partial(self.handle_query_result, current_tab)] or
    [partial(self.handle_query_error, current_tab)]. *)
Definition deliver (tab : nat) (sig : Op) (w : Window) : Window * list Effect :=
  match sig with
  | EmitFinished results columns row_count elapsed is_select =>
      handle_query_result tab results columns row_count elapsed is_select w
  | EmitError msg => handle_query_error tab msg w
  | _ => (w, [])
  end.

(** The terminal outcomes of the specification, as the window shows them. *)
Inductive Outcome :=
| OnSuccess (row_count : Z)
| OnError (msg : string)
| OnCancelled
| OnTimedOut (ms : Z).

Definition terminal (tab : nat) (e : Effect) : option Outcome :=
  match e with
  | SetTabStatus tab' text =>
      if decide (tab' = tab) then
        match text with
        | QueryOk n _ | CommandOk n _ => Some (OnSuccess n)
        | ErrorText m => Some (OnError m)
        | TimedOutText ms => Some (OnTimedOut ms)
        | CancelledText => Some OnCancelled
        | Waiting => None
        end
      else None
  | _ => None
  end.

(** The driver calls that [cancel] made, among a list of effects. *)
Definition is_abort (e : Effect) : bool :=
  match e with Abort _ _ => true | _ => false end.

Definition aborts (es : list Effect) : list Effect := List.filter is_abort es.

(** The terminal notifications shown on [tab] by a list of effects. *)
Definition outcomes (tab : nat) (es : list Effect) : list Outcome :=
  omap (terminal tab) es.

End MainWindow.

(** ** One submission, from the click on Execute to the last handler

    The GUI thread and the worker thread of one query, put together.  The
    query is submitted on the current tab of a window.  At most one request
    to stop it reaches the window before the worker's signal does: the Cancel
    action, the timeout timer, or the close button of the tab.
    [cancel_req = Some (c, t)] says that the request [c] ran [cancel] between
    the flag reads of the worker stamped below [t] and those stamped [t] or
    more (see the conventions above); the handler of the request therefore
    runs before the slot of any signal the worker emits.  A timeout timer that
    no handler stopped is still started when the worker is done, and fires.
    The current tab stays the current one, and no other query of the window
    ends meanwhile. *)
Module Session.
Import Database MainWindow.

Inductive CancelCause :=
| ByUser          (* cancel_action.triggered -> cancel_current_query *)
| ByWatchdog      (* timeout_timer.timeout -> handle_query_timeout *)
| ByCloseTab.     (* tab_widget.tabCloseRequested -> close_tab *)

Record Scenario := {
  window : Window;                       (* the window at the click on Execute *)
  tab_index : nat;                       (* tab_widget.currentIndex() *)
  driver : Driver;
  item_data : option (gmap string PyVal);
  editor : string;
  combo : string;
  now : Z;
  cancel_req : option (CancelCause * nat)
}.

(** [tab_widget.currentWidget()] *)
Definition current_tab (s : Scenario) : option nat :=
  tabs (window s) !! tab_index s.

(** Run a handler after others, collecting what is shown. *)
Definition and_then (f : Window -> Window * list Effect)
    (x : Window * list Effect) : Window * list Effect :=
  let '(w, es) := f (fst x) in (w, snd x ++ es).

(** The window after the click on Execute. *)
Definition submit (s : Scenario) : Window * list Effect :=
  execute_query (current_tab s) (editor s) (combo s) (item_data s) (now s)
    (window s).

(** The tab, the name of the runnable and the timers that an accepted click
    recorded: the tab had no query before the click and has one after it. *)
Definition recorded (s : Scenario) : option (nat * nat * TimerEntry) :=
  match current_tab s with
  | Some tab =>
      match running_queries (window s) !! tab,
            running_queries (fst (submit s)) !! tab,
            tab_timers (fst (submit s)) !! tab with
      | None, Some r, Some e => Some (tab, r, e)
      | _, _, _ => None
      end
  | None => None
  end.

(** The runnable that the click created, if it was accepted. *)
Definition submitted (s : Scenario) : option Runnable :=
  match recorded s with
  | Some (_, r, _) => runnables (fst (submit s)) !! r
  | None => None
  end.

(** What the worker does with that runnable. *)
Definition worker (s : Scenario) (o : Runnable) : list Op :=
  run (driver s) (r_conn_data o) (r_query o) (snd <$> cancel_req s).

(** [self.conn] as [cancel] finds it at [t]: the handle is published in
    the locked block of lines 75-79 and unpublished in that of lines
    122-123. *)
Definition published_at (t : nat) (tr : list Op) : option ConnKind :=
  if (76 <? t)%nat && (t <=? 123)%nat then
    head (omap (fun o => match o with Publish k => Some k | _ => None end) tr)
  else None.

(** The worker's write to [self.conn], as seen from the GUI thread. *)
Definition set_conn (r : nat) (k : option ConnKind) (w : Window) : Window :=
  match runnables w !! r with
  | Some o =>
      set_runnables
        (<[r := {| r_conn_data := r_conn_data o; r_query := r_query o;
                   r_task := {| _is_cancelled := _is_cancelled (r_task o);
                                conn := k |} |}]> (runnables w)) w
  | None => w
  end.

Definition request (s : Scenario) (c : CancelCause) (tab timeout_t : nat)
  : Window -> Window * list Effect :=
  match c with
  | ByUser => cancel_current_query (Some tab)
  | ByWatchdog => fire_timeout timeout_t
  | ByCloseTab => close_tab (tab_index s)
  end.

(** Everything that happens in the window after the submission. *)
Definition session (s : Scenario) : Window * list Effect :=
  let w1 := fst (submit s) in
  match recorded s, submitted s with
  | Some (tab, r, e), Some o =>
      let x1 :=
        match cancel_req s with
        | Some (c, t) =>
            request s c tab (timeout_timer e)
              (set_conn r (published_at t (worker s o)) w1)
        | None => (w1, [])
        end in
      let x2 :=
        foldl (fun x sig => and_then (deliver tab sig) x) x1
              (signals (worker s o)) in
      and_then (fire_timeout (timeout_timer e)) x2
  | _, _ => (w1, [])
  end.

(** The terminal notifications of the submission, on its tab. *)
Definition notifications (s : Scenario) : list Outcome :=
  match current_tab s with
  | Some tab => outcomes tab (snd (session s))
  | None => []
  end.

(** The same scenario with another request. *)
Definition with_cancel_req (r : option (CancelCause * nat)) (s : Scenario)
  : Scenario :=
  {| window := window s; tab_index := tab_index s; driver := driver s;
     item_data := item_data s; editor := editor s; combo := combo s;
     now := now s; cancel_req := r |}.

End Session.

(** ** The words of the specification *)
Module Spec.

(** "A statement is treated as row-returning if and only if its text,
    trimmed and case-folded, begins with the literal token select." *)
Definition row_returning (sql : string) : bool :=
  PyStr.startswith (PyStr.lower (PyStr.strip sql)) "select".

End Spec.

(** ** Sample drivers, descriptors and scenarios *)
Module Examples.
Import Database MainWindow Session.

(** A driver that answers every call: two columns, two rows, and a row count
    it cannot report. *)
Definition ok_driver : Driver :=
  {| sqlite_connect := fun _ => None;
     pg_connect := fun _ _ _ _ _ => None;
     int_of_str := fun _ => inl 5432%Z;
     cursor := None;
     execute := fun _ => None;
     description := Some ["id"; "name"];
     fetchall := inl [["1"; "a"]; ["2"; "b"]];
     commit := None;
     rowcount := (-1)%Z;
     time_start := 10%Z;
     time_end := 12%Z |}.

(** As [ok_driver], but [cursor.execute] raises [e]. *)
Definition failing_driver (e : PyExc) : Driver :=
  {| sqlite_connect := fun _ => None;
     pg_connect := fun _ _ _ _ _ => None;
     int_of_str := fun _ => inl 5432%Z;
     cursor := None;
     execute := fun _ => Some e;
     description := None;
     fetchall := inl [];
     commit := None;
     rowcount := (-1)%Z;
     time_start := 10%Z;
     time_end := 12%Z |}.

(** As [ok_driver], but the cursor has no description after [execute]. *)
Definition bare_driver : Driver :=
  {| sqlite_connect := fun _ => None;
     pg_connect := fun _ _ _ _ _ => None;
     int_of_str := fun _ => inl 5432%Z;
     cursor := None;
     execute := fun _ => None;
     description := None;
     fetchall := inl [["1"; "a"]];
     commit := None;
     rowcount := (-1)%Z;
     time_start := 10%Z;
     time_end := 12%Z |}.

(** What sqlite3 raises when [interrupt] stops a statement. *)
Definition interrupted : PyExc :=
  {| exc_class := SqliteOperationalError; exc_str := "interrupted" |}.

(** What sqlite3 raises for a table that does not exist. *)
Definition no_such_table : PyExc :=
  {| exc_class := SqliteOperationalError;
     exc_str := "no such table: canceled_orders" |}.

Definition sqlite_descriptor : option (gmap string PyVal) :=
  Some {[ "db_path" := PyStr "a.db" ]}.

(** A descriptor with a file path and every network field. *)
Definition full_descriptor : option (gmap string PyVal) :=
  Some (<["db_path" := PyStr "a.db"]>
        (<["host" := PyStr "localhost"]>
         (<["port" := PyInt 5432]>
          (<["database" := PyStr "shop"]>
           (<["user" := PyStr "app"]>
            {[ "password" := PyStr "secret" ]}))))).

(** A statement submitted on the worksheet of a window just opened. *)
Definition scenario (d : Driver) (sql : string)
    (r : option (CancelCause * nat)) : Scenario :=
  {| window := init; tab_index := 0; driver := d;
     item_data := sqlite_descriptor; editor := sql;
     combo := "SQLite Connections -> local -> a"; now := 0%Z;
     cancel_req := r |}.

(** The runnable that a submission of "select 1" creates. *)
Definition select_runnable : Runnable :=
  {| r_conn_data := sqlite_descriptor; r_query := "select 1";
     r_task := {| _is_cancelled := false; conn := None |} |}.

(** The window while the query of [scenario ok_driver "select 1" None] runs. *)
Definition busy_window : Window :=
  fst (submit (scenario ok_driver "select 1" None)).

End Examples.
(** * Lemmas *)

(** ** Strings *)
Module PyStrFacts.
Import PyStr.

Lemma isspace_lower_char c : isspace (lower_char c) = isspace c.
Proof. destruct c as [[] [] [] [] [] [] [] []]; reflexivity. Qed.

Lemma lower_empty s : lower s = EmptyString -> s = EmptyString.
Proof. destruct s; [reflexivity | discriminate]. Qed.

Lemma lstrip_lower s : lstrip (lower s) = lower (lstrip s).
Proof.
  induction s as [|c r IH]; simpl; [reflexivity|].
  rewrite isspace_lower_char. destruct (isspace c); [exact IH | reflexivity].
Qed.

Lemma rstrip_lower s : rstrip (lower s) = lower (rstrip s).
Proof.
  induction s as [|c r IH]; simpl; [reflexivity|].
  rewrite IH, isspace_lower_char.
  destruct (rstrip r) as [|c' r']; simpl; [|reflexivity].
  destruct (isspace c); reflexivity.
Qed.

Lemma strip_lower s : strip (lower s) = lower (strip s).
Proof. unfold strip. rewrite lstrip_lower. apply rstrip_lower. Qed.

Lemma app_cons c p b : String c p +:+ b = String c (p +:+ b).
Proof. reflexivity. Qed.

Lemma app_empty b : EmptyString +:+ b = b.
Proof. reflexivity. Qed.

Lemma prefix_spec p s :
  String.prefix p s = true <-> exists b, s = p +:+ b.
Proof.
  revert s. induction p as [|c p IH]; intros s; simpl.
  - split; [intros _; exists s; reflexivity | destruct s; reflexivity].
  - destruct s as [|d s]; simpl.
    + split; [discriminate | intros [b Hb]; discriminate].
    + destruct (Ascii.ascii_dec c d) as [->|Hne].
      * rewrite IH. split; intros [b Hb]; exists b;
          [rewrite Hb; reflexivity | rewrite app_cons in Hb; congruence].
      * split; [discriminate | intros [b Hb]; rewrite app_cons in Hb; congruence].
Qed.

Lemma contains_nil n : contains n EmptyString = String.prefix n EmptyString.
Proof. destruct n; reflexivity. Qed.

Lemma contains_cons n c h :
  contains n (String c h) = String.prefix n (String c h) || contains n h.
Proof. reflexivity. Qed.

Lemma contains_spec n h :
  contains n h = true <-> exists a b, h = a +:+ n +:+ b.
Proof.
  induction h as [|c h IH].
  - rewrite contains_nil, prefix_spec. split.
    + intros [b Hb]. exists EmptyString, b. exact Hb.
    + intros [a [b Hb]]. destruct a; [exists b; exact Hb | discriminate].
  - rewrite contains_cons, orb_true_iff, prefix_spec, IH. split.
    + intros [[b Hb] | [a [b Hb]]].
      * exists EmptyString, b. exact Hb.
      * exists (String c a), b. rewrite app_cons, Hb. reflexivity.
    + intros [a [b Hb]]. destruct a as [|c' a].
      * left. exists b. exact Hb.
      * right. exists a, b. rewrite app_cons in Hb. congruence.
Qed.
End PyStrFacts.

(** ** The paths of [run] *)
Module RunFacts.
Import Database.

Lemma is_cancelled_mono c l l' :
  (l <= l')%nat -> is_cancelled c l = true -> is_cancelled c l' = true.
Proof.
  unfold is_cancelled. destruct c as [t|]; [|discriminate].
  intros Hl H. apply Nat.leb_le in H. apply Nat.leb_le. lia.
Qed.

Lemma is_cancelled_before c l l' :
  (l <= l')%nat -> is_cancelled c l' = false -> is_cancelled c l = false.
Proof.
  intros Hl H. destruct (is_cancelled c l) eqn:E; [|reflexivity].
  rewrite (is_cancelled_mono c l l' Hl E) in H. discriminate.
Qed.

Lemma is_cancelled_at t l : (t <= l)%nat -> is_cancelled (Some t) l = true.
Proof. intros H. apply Nat.leb_le. exact H. Qed.

Section Paths.
Variable driver : Driver.
Variable cd : option (gmap string PyVal).
Variable q : string.
Variable c : option nat.

Lemma run_eq :
  run driver cd q c =
  if is_cancelled c 55 then finally None
  else if conn_data_falsy cd then handler c conn_error ++ finally None
  else match connect driver cd None with
       | (tr, lc, inl _) => tr ++ after_connect driver cd q c lc
       | (tr, lc, inr Return_) => tr ++ finally lc
       | (tr, lc, inr (Raise e)) => tr ++ handler c e ++ finally lc
       end.
Proof.
  unfold run, run_try, after_connect, after_execute, finished, bind.
  destruct (is_cancelled c 55); [reflexivity|].
  cbv beta iota delta [ret leave raise].
  destruct (conn_data_falsy cd); [reflexivity|].
  cbv beta iota.
  destruct (connect driver cd None) as [[tr lc] [[]|[|e]]]; [|reflexivity..].
  destruct (is_cancelled c 76).
  { unfold do, leave, bind. rewrite <- !app_assoc. reflexivity. }
  unfold call, do, bind, ret, raise, leave.
  destruct (cursor driver) as [e|]; [rewrite <- !app_assoc; reflexivity|].
  destruct (execute driver q) as [e|]; [rewrite <- !app_assoc; reflexivity|].
  destruct (is_cancelled c 85); [rewrite <- !app_assoc; reflexivity|].
  destruct (collect driver q c lc) as [[tr2 lc2] [[[res cols] n]|[|e]]];
    [|rewrite <- !app_assoc; reflexivity..].
  destruct (is_cancelled c 104); rewrite <- !app_assoc; reflexivity.
Qed.

Lemma collect_eq lc :
  collect driver q c lc =
  if is_select_query q then
    if description_truthy driver then
      if is_cancelled c 96 then ([], lc, inl ([], description_names driver, 0%Z))
      else match fetchall driver with
           | inl rs =>
               ([Fetchall], lc,
                inl (rs, description_names driver, Z.of_nat (length rs)))
           | inr e => ([Fetchall], lc, inr (Raise e))
           end
    else ([], lc, inl ([], [], 0%Z))
  else match commit driver with
       | None => ([Commit], lc, inl ([], [], clamped_rowcount driver))
       | Some e => ([Commit], lc, inr (Raise e))
       end.
Proof.
  unfold collect, clamped_rowcount.
  destruct (is_select_query q).
  - destruct (description_truthy driver); [|reflexivity].
    destruct (is_cancelled c 96); [reflexivity|].
    unfold bind, do, lift, ret, raise, leave. cbv beta iota.
    destruct (fetchall driver); reflexivity.
  - unfold call, bind, do, ret, raise, leave.
    destruct (commit driver); reflexivity.
Qed.

Lemma connect_cases lc : connect_result cd lc (connect driver cd lc).
Proof.
  unfold connect.
  destruct (db_type cd) eqn:Hk.
  - unfold bind, lift, call, do, ret, raise, leave, set_local_conn.
    destruct (getitem cd "db_path") as [v|e]; [|constructor].
    cbv beta iota.
    destruct (sqlite_connect driver v); cbv beta iota; simpl app;
      rewrite <- ?Hk; by constructor.
  - unfold bind, lift, call, do, ret, raise, leave, set_local_conn.
    destruct (getitem cd "host") as [h|e]; [|constructor].
    destruct (getitem cd "database") as [db|e]; [|constructor].
    destruct (getitem cd "user") as [u|e]; [|constructor].
    destruct (getitem cd "password") as [pw|e]; [|constructor].
    destruct (getitem cd "port") as [pv|e]; [|constructor].
    destruct (py_int driver pv) as [p|e]; [|constructor].
    cbv beta iota.
    destruct (pg_connect driver h db u pw p); cbv beta iota; simpl app;
      rewrite <- ?Hk; by constructor.
Qed.

End Paths.
End RunFacts.

(** ** The signals of a run *)
Module TaskFacts.
Import Database RunFacts.

Lemma signals_app tr tr' : signals (tr ++ tr') = signals tr ++ signals tr'.
Proof. apply List.filter_app. Qed.

Lemma signals_finally lc : signals (finally lc) = [].
Proof. destruct lc; reflexivity. Qed.

Lemma in_finally o lc : In o (finally lc) -> o = Unpublish \/ o = Close.
Proof. destruct lc; simpl; intuition. Qed.

Lemma in_handler c e o : In o (handler c e) -> o = EmitError (exc_str e).
Proof.
  unfold handler.
  destruct (is_cancel_class e), (message_sniffed e),
    (is_cancelled c 116), (is_cancelled c 119); simpl; intuition.
Qed.

Lemma handler_cancelled c e :
  is_cancelled c 116 = true -> handler c e = [].
Proof.
  intros H. unfold handler.
  rewrite H, (is_cancelled_mono c 116 119 ltac:(lia) H).
  destruct (is_cancel_class e), (message_sniffed e); reflexivity.
Qed.

Lemma handler_sniffed c e :
  is_cancel_class e = true -> message_sniffed e = true -> handler c e = [].
Proof. intros H1 H2. unfold handler. rewrite H1, H2. reflexivity. Qed.

Lemma signals_handler c e : signals (handler c e) = handler c e.
Proof.
  unfold handler.
  destruct (is_cancel_class e), (message_sniffed e),
    (is_cancelled c 116), (is_cancelled c 119); reflexivity.
Qed.

Lemma handler_length c e : (length (handler c e) <= 1)%nat.
Proof.
  unfold handler.
  destruct (is_cancel_class e), (message_sniffed e),
    (is_cancelled c 116), (is_cancelled c 119); simpl; lia.
Qed.

Lemma is_connect_not_signal o : is_connect o = true -> is_signal o = false.
Proof. destruct o; simpl; congruence. Qed.

Section Body.
Variable driver : Driver.
Variable cd : option (gmap string PyVal).
Variable q : string.
Variable c : option nat.

Lemma signals_connect lc tr lc' r :
  connect driver cd lc = (tr, lc', r) -> signals tr = [].
Proof.
  intros H. pose proof (connect_cases driver cd lc) as Hc. rewrite H in Hc.
  inversion Hc; subst; try reflexivity;
    unfold signals; simpl; by rewrite is_connect_not_signal.
Qed.

Lemma signals_collect lc tr lc' r :
  collect driver q c lc = (tr, lc', r) -> signals tr = [].
Proof.
  rewrite collect_eq. intros H.
  repeat match type of H with
         | (if ?b then _ else _) = _ => destruct b
         | match ?x with _ => _ end = _ => destruct x
         end; inversion H; reflexivity.
Qed.

Lemma run_try_cases : try_result driver q c (run_try driver cd q c None).
Proof.
  unfold run_try, bind.
  destruct (is_cancelled c 55); [by constructor|].
  cbv beta iota delta [ret leave raise].
  destruct (conn_data_falsy cd); [by constructor|].
  cbv beta iota.
  destruct (connect driver cd None) as [[tr lc] [[]|x]] eqn:Hc;
    pose proof (signals_connect _ _ _ _ Hc) as Hq; [|by constructor].
  destruct (is_cancelled c 76).
  { unfold do, leave, bind. constructor.
    rewrite !signals_app, Hq. reflexivity. }
  unfold call, do, bind, ret, raise, leave.
  destruct (cursor driver) as [e|].
  { constructor. rewrite !signals_app, Hq. reflexivity. }
  destruct (execute driver q) as [e|].
  { constructor. rewrite !signals_app, Hq. reflexivity. }
  destruct (is_cancelled c 85).
  { constructor. rewrite !signals_app, Hq. reflexivity. }
  destruct (collect driver q c lc) as [[tr2 lc2] [r|x]] eqn:Hcol;
    pose proof (signals_collect _ _ _ _ Hcol) as Hq2.
  2:{ constructor. rewrite !signals_app, Hq, Hq2. reflexivity. }
  destruct (is_cancelled c 104) eqn:H104.
  { constructor. rewrite !signals_app, Hq, Hq2. reflexivity. }
  rewrite !app_nil_l, !app_assoc. constructor; [exact H104|].
  rewrite !signals_app, Hq, Hq2. reflexivity.
Qed.

(** The signals of a run: at most one. *)
Lemma signals_run :
  signals (run driver cd q c) =
  match run_try driver cd q c None with
  | (_, _, inr (Raise e)) => handler c e
  | (_, _, inr Return_) => []
  | (tr, _, inl _) => signals tr
  end.
Proof.
  unfold run. pose proof run_try_cases as H.
  destruct (run_try driver cd q c None) as [[tr lc] r].
  inversion H as [tr' lc' x Hq|tr' lc' r' H104 Hq]; subst.
  - destruct x; rewrite !signals_app, Hq, signals_finally, ?signals_handler;
      simpl; by rewrite ?app_nil_r.
  - rewrite !signals_app, Hq, signals_finally. simpl. by rewrite !app_nil_r.
Qed.

Lemma at_most_one_signal : (length (signals (run driver cd q c)) <= 1)%nat.
Proof.
  rewrite signals_run. pose proof run_try_cases as H.
  destruct (run_try driver cd q c None) as [[tr lc] r].
  inversion H as [tr' lc' x Hq|tr' lc' r' H104 Hq]; subst.
  - destruct x; [simpl; lia | apply handler_length].
  - rewrite signals_app, Hq. destruct r' as [[? ?] ?]. simpl. lia.
Qed.

Lemma signals_raised e :
  raised driver cd q c = Some e ->
  signals (run driver cd q c) = handler c e.
Proof.
  rewrite signals_run. unfold raised.
  destruct (run_try driver cd q c None) as [[tr lc] [[]|[|e']]];
    intros H; inversion H; reflexivity.
Qed.

End Body.
End TaskFacts.

(** ** What a trace contains *)
Module TraceFacts.
Import Database PyStrFacts RunFacts TaskFacts.

Lemma is_select_query_spec q : is_select_query q = Spec.row_returning q.
Proof. unfold is_select_query, Spec.row_returning. by rewrite strip_lower. Qed.

Ltac split_in H :=
  repeat match type of H with
         | In _ (_ ++ _) => apply in_app_or in H as [H|H]
         | In _ (_ :: _) => destruct H as [H|H]
         | In _ [] => destruct H
         | In _ (handler _ _) => apply in_handler in H
         | In _ (finally _) => apply in_finally in H as [H|H]
         | _ \/ _ => destruct H as [H|H]
         | False => destruct H
         end.

Ltac refute_in H := exfalso; split_in H; subst; discriminate.

(** The trace of a run in which [cursor.execute] was called. *)
Lemma run_executed driver cd q c :
  In (Execute q) (run driver cd q c) ->
  exists o,
    is_connect o = true /\
    run driver cd q c
    = [o; Publish (db_type cd); Cursor; Execute q]
      ++ match execute driver q with
         | Some e => handler c e ++ finally (Some (db_type cd))
         | None => after_execute driver q c (Some (db_type cd))
         end.
Proof.
  rewrite run_eq.
  destruct (is_cancelled c 55); [intros H; refute_in H|].
  destruct (conn_data_falsy cd); [intros H; refute_in H|].
  pose proof (connect_cases driver cd None) as Hc.
  destruct (connect driver cd None) as [[tr lc] r].
  inversion Hc as [o Ho|o e Ho|e]; subst.
  - unfold after_connect.
    destruct (is_cancelled c 76); [intros H; refute_in H|].
    destruct (cursor driver) as [e|]; [intros H; refute_in H|].
    intros _. exists o. split; [exact Ho | reflexivity].
  - intros H; refute_in H.
  - intros H; refute_in H.
Qed.

Lemma in_collect driver q c lc tr lc' r o :
  collect driver q c lc = (tr, lc', r) -> In o tr -> o = Fetchall \/ o = Commit.
Proof.
  rewrite collect_eq. intros H.
  repeat match type of H with
         | (if ?b then _ else _) = _ => destruct b
         | match ?x with _ => _ end = _ => destruct x
         end; inversion H; subst; simpl; intuition.
Qed.

Lemma collect_keeps_conn driver q c lc tr lc' r :
  collect driver q c lc = (tr, lc', r) -> lc' = lc.
Proof.
  rewrite collect_eq. intros H.
  repeat match type of H with
         | (if ?b then _ else _) = _ => destruct b
         | match ?x with _ => _ end = _ => destruct x
         end; inversion H; reflexivity.
Qed.

Lemma in_after_execute driver q c lc o :
  In o (after_execute driver q c lc) ->
  o = Fetchall \/ o = Commit \/ is_signal o = true \/ o = Unpublish \/ o = Close.
Proof.
  unfold after_execute. destruct (is_cancelled c 85).
  { intros H. apply in_finally in H. tauto. }
  destruct (collect driver q c lc) as [[tr lc'] r] eqn:Hcol.
  pose proof (in_collect _ _ _ _ _ _ _ o Hcol) as Htr.
  destruct r as [[[res cols] n]|[|e]]; [destruct (is_cancelled c 104)|..];
    intros H; split_in H; subst; simpl; tauto.
Qed.

Lemma in_after_connect driver cd q c lc o :
  In o (after_connect driver cd q c lc) -> is_connect o = false.
Proof.
  unfold after_connect.
  destruct (is_cancelled c 76); [|destruct (cursor driver);
    [|destruct (execute driver q)]]; intros H; split_in H; subst;
    try reflexivity.
  apply in_after_execute in H as [-> | [-> | [H | [-> | ->]]]]; try reflexivity.
  destruct o; done.
Qed.

Lemma cancelled_before_start driver cd q t :
  (t <= 55)%nat -> run driver cd q (Some t) = [Unpublish].
Proof.
  intros Ht. rewrite run_eq, (is_cancelled_at t 55 Ht). reflexivity.
Qed.

Lemma db_type_sqlite_iff cd :
  db_type cd = SqliteConn <->
  exists d v, cd = Some d /\ d !! "db_path" = Some v /\ truthy v = true.
Proof.
  unfold db_type. split.
  - destruct cd as [d|]; [|discriminate].
    destruct (d !! "db_path") as [v|] eqn:Hv; [|discriminate].
    destruct (truthy v) eqn:Ht; [|discriminate].
    intros _. by exists d, v.
  - intros (d & v & -> & Hv & Ht). by rewrite Hv, Ht.
Qed.

Lemma raised_falsy driver cd q c :
  is_cancelled c 55 = false -> conn_data_falsy cd = true ->
  raised driver cd q c = Some conn_error.
Proof.
  intros H55 Hf. unfold raised, run_try, bind. rewrite H55.
  cbv beta iota delta [ret]. rewrite Hf. reflexivity.
Qed.

Lemma count_app p tr tr' : count p (tr ++ tr') = (count p tr + count p tr')%nat.
Proof. unfold count. by rewrite List.filter_app, length_app. Qed.

Lemma count_zero p tr : (forall o, In o tr -> p o = false) -> count p tr = 0%nat.
Proof.
  unfold count. induction tr as [|o tr IH]; intros H; [reflexivity|].
  simpl. rewrite (H o (or_introl eq_refl)). apply IH.
  intros o' Ho'. apply H. by right.
Qed.

Lemma count_cons p o tr :
  count p (o :: tr) = ((if p o then 1 else 0) + count p tr)%nat.
Proof. unfold count. simpl. by destruct (p o). Qed.

Lemma close_count_finally lc :
  count is_close (finally lc) = match lc with Some _ => 1%nat | None => 0%nat end.
Proof. by destruct lc. Qed.

Lemma close_count_handler c e : count is_close (handler c e) = 0%nat.
Proof. apply count_zero. intros o H. apply in_handler in H. by subst. Qed.

Lemma close_count_after_execute driver q c k :
  count is_close (after_execute driver q c (Some k)) = 1%nat.
Proof.
  unfold after_execute. destruct (is_cancelled c 85); [reflexivity|].
  destruct (collect driver q c (Some k)) as [[tr lc'] r] eqn:Hcol.
  pose proof (collect_keeps_conn _ _ _ _ _ _ _ Hcol) as ->.
  assert (count is_close tr = 0%nat) as Htr.
  { apply count_zero. intros o H.
    destruct (in_collect _ _ _ _ _ _ _ o Hcol H) as [-> | ->]; reflexivity. }
  destruct r as [[[res cols] n]|[|e]]; [destruct (is_cancelled c 104)|..];
    rewrite !count_app, ?Htr, ?close_count_handler; reflexivity.
Qed.

(** How often a run calls [close]: twice when the cancellation is seen at
    line 76, once on every other path that holds a connection. *)
Lemma close_count driver cd q c :
  count is_close (run driver cd q c) =
  if is_cancelled c 55 || conn_data_falsy cd then 0%nat
  else match connect driver cd None with
       | (_, _, inl _) => if is_cancelled c 76 then 2%nat else 1%nat
       | _ => 0%nat
       end.
Proof.
  rewrite run_eq.
  destruct (is_cancelled c 55); [reflexivity|].
  destruct (conn_data_falsy cd).
  { simpl. by rewrite count_app, close_count_handler. }
  simpl. pose proof (connect_cases driver cd None) as Hc.
  destruct (connect driver cd None) as [[tr lc] r].
  inversion Hc as [o Ho|o e Ho|e]; subst.
  - rewrite count_app.
    assert (count is_close [o] = 0%nat) as -> by (destruct o; done).
    unfold after_connect. destruct (is_cancelled c 76); [reflexivity|].
    destruct (cursor driver); [|destruct (execute driver q)];
      rewrite !count_cons, ?count_app, ?close_count_handler,
        ?close_count_after_execute; reflexivity.
  - rewrite !count_app, close_count_handler.
    destruct o; done.
  - by rewrite !count_app, close_count_handler.
Qed.


Lemma silent_when_cancelled driver cd q t :
  (t <= 104)%nat -> signals (run driver cd q (Some t)) = [].
Proof.
  intros Ht. rewrite signals_run.
  pose proof (run_try_cases driver cd q (Some t)) as H.
  destruct (run_try driver cd q (Some t) None) as [[tr lc] r].
  inversion H as [tr' lc' x Hq|tr' lc' r' H104 Hq]; subst.
  - destruct x; [reflexivity|].
    apply handler_cancelled, is_cancelled_at. lia.
  - rewrite (is_cancelled_at t 104 Ht) in H104. discriminate.
Qed.

(** A run emits nothing, or [finished] once, or [error] once. *)
Lemma signals_shape driver cd q c :
  signals (run driver cd q c) = []
  \/ (exists r, signals (run driver cd q c) = [finished driver q r])
  \/ (exists m, signals (run driver cd q c) = [EmitError m]).
Proof.
  rewrite signals_run.
  pose proof (run_try_cases driver cd q c) as H.
  destruct (run_try driver cd q c None) as [[tr lc] r].
  inversion H as [tr' lc' x Hq|tr' lc' r' H104 Hq]; subst.
  - destruct x as [|e]; [by left|].
    unfold handler.
    destruct (is_cancel_class e), (message_sniffed e),
      (is_cancelled c 116), (is_cancelled c 119); eauto.
  - right. left. exists r'. rewrite signals_app, Hq.
    by destruct r' as [[? ?] ?].
Qed.

(** Every run unpublishes the handle once, in [finally]. *)
Lemma unpublish_count driver cd q c :
  count is_unpublish (run driver cd q c) = 1%nat.
Proof.
  assert (forall e, count is_unpublish (handler c e) = 0%nat) as Hh.
  { intros e. apply count_zero. intros o H. apply in_handler in H. by subst. }
  assert (forall lc, count is_unpublish (finally lc) = 1%nat) as Hf.
  { by intros [|]. }
  assert (forall lc, count is_unpublish (after_execute driver q c lc) = 1%nat)
    as Ha.
  { intros lc. unfold after_execute.
    destruct (is_cancelled c 85); [apply Hf|].
    destruct (collect driver q c lc) as [[tr lc'] r] eqn:Hcol.
    assert (count is_unpublish tr = 0%nat) as Htr.
    { apply count_zero. intros o H.
      destruct (in_collect _ _ _ _ _ _ _ o Hcol H) as [-> | ->]; reflexivity. }
    destruct r as [[[res cols] n]|[|e]]; [destruct (is_cancelled c 104)|..];
      rewrite !count_app, ?Htr, ?Hh, ?Hf; reflexivity. }
  rewrite run_eq.
  destruct (is_cancelled c 55); [apply Hf|].
  destruct (conn_data_falsy cd); [by rewrite count_app, Hh, Hf|].
  pose proof (connect_cases driver cd None) as Hc.
  destruct (connect driver cd None) as [[tr lc] r].
  inversion Hc as [o Ho|o e Ho|e]; subst.
  - rewrite count_app.
    assert (count is_unpublish [o] = 0%nat) as -> by (destruct o; done).
    unfold after_connect.
    destruct (is_cancelled c 76); [by rewrite count_cons, Hf|].
    destruct (cursor driver); [|destruct (execute driver q)];
      rewrite !count_cons, ?count_app, ?Hh, ?Hf, ?Ha; reflexivity.
  - rewrite !count_app, Hh, Hf. destruct o; done.
  - by rewrite !count_app, Hh, Hf.
Qed.

End TraceFacts.

(** ** The window *)
Module WindowFacts.
Import Database MainWindow.

(** A submit on a free slot is accepted: it creates one runnable, records
    it against the tab and starts it. *)
Lemma free_slot_accepts w tab editor combo item now :
  running_queries w !! tab = None ->
  combo <> "" -> PyStr.strip editor <> "" ->
  let w' := fst (execute_query (Some tab) editor combo item now w) in
  let r := S (S (next_id w)) in
  running_queries w' !! tab = Some r
  /\ pool w' = pool w ++ [r]
  /\ runnables w' !! r
     = Some {| r_conn_data := item; r_query := PyStr.strip editor;
               r_task := {| _is_cancelled := false; conn := None |} |}.
Proof.
  intros Hfree Hc Hq. unfold execute_query.
  destruct (decide (is_Some (running_queries w !! tab))) as [[? H]|_];
    [congruence|].
  apply String.eqb_neq in Hc, Hq. rewrite Hc, Hq. simpl.
  split; [apply lookup_insert_eq|]. split; [reflexivity|].
  apply lookup_insert_eq.
Qed.

(** A task is started only on a tab that has no query recorded. *)
Lemma started_only_on_free_slot w tab editor combo item now :
  pool (fst (execute_query (Some tab) editor combo item now w)) <> pool w ->
  running_queries w !! tab = None.
Proof.
  unfold execute_query.
  destruct (decide (is_Some (running_queries w !! tab))) as [_|Hn];
    [intros H; by destruct H|].
  intros _. destruct (running_queries w !! tab) eqn:E; [|reflexivity].
  exfalso. apply Hn. eauto.
Qed.

Lemma outcomes_app tab es es' :
  outcomes tab (es ++ es') = outcomes tab es ++ outcomes tab es'.
Proof. apply omap_app. Qed.

Lemma outcomes_aborts tab r (ops : list AbortOp) :
  outcomes tab (Abort r <$> ops) = [].
Proof. induction ops as [|o ops IH]; [reflexivity | exact IH]. Qed.

Lemma outcomes_status tab text :
  outcomes tab [SetTabStatus tab text]
  = match text with
    | QueryOk n _ | CommandOk n _ => [OnSuccess n]
    | ErrorText m => [OnError m]
    | TimedOutText ms => [OnTimedOut ms]
    | CancelledText => [OnCancelled]
    | Waiting => []
    end.
Proof.
  unfold outcomes. simpl.
  destruct (decide (tab = tab)); [|contradiction]. by destruct text.
Qed.

(** [runnable.cancel()] touches the runnables only. *)
Lemma cancel_runnable_fields r w :
  let w' := fst (cancel_runnable r w) in
  tabs w' = tabs w /\ running_queries w' = running_queries w
  /\ tab_timers w' = tab_timers w /\ active_timers w' = active_timers w
  /\ timeout_slot w' = timeout_slot w /\ pool w' = pool w
  /\ cancel_enabled w' = cancel_enabled w /\ spinning w' = spinning w
  /\ next_id w' = next_id w.
Proof.
  unfold cancel_runnable. destruct (runnables w !! r) as [o|]; [|done].
  by destruct (cancel (r_task o)).
Qed.

Lemma cancel_runnable_effects r w :
  exists ops, snd (cancel_runnable r w) = Abort r <$> ops.
Proof.
  unfold cancel_runnable. destruct (runnables w !! r) as [o|].
  - destruct (cancel (r_task o)) as [t ops]. by exists ops.
  - by exists [].
Qed.

(** A timer that is not started does not fire. *)
Lemma fire_timeout_stopped t w :
  t ∉ active_timers w -> fire_timeout t w = (w, []).
Proof.
  intros H. unfold fire_timeout.
  destruct (decide (t ∈ active_timers w)); [contradiction | reflexivity].
Qed.

(** The Cancel action on a tab with a query: the cancelled outcome, a free
    tab, both timers stopped. *)
Lemma cancel_current_query_recorded tab r e w :
  running_queries w !! tab = Some r ->
  tab_timers w !! tab = Some e ->
  let x := cancel_current_query (Some tab) w in
  outcomes tab (snd x) = [OnCancelled]
  /\ running_queries (fst x) = delete tab (running_queries w)
  /\ ((timeout_timer e) ∉ active_timers (fst x)).
Proof.
  intros Hr He. unfold cancel_current_query. rewrite Hr.
  destruct (cancel_runnable_fields r w) as (_ & Hq & Ht & Ha & _).
  destruct (cancel_runnable_effects r w) as [ops Hops].
  destruct (cancel_runnable r w) as [w1 es]. simpl in *. subst es.
  split; [|split].
  - rewrite outcomes_app, outcomes_aborts.
    change [SetTabStatus tab CancelledText; SetStatusMessage "Query Cancelled"]
      with ([SetTabStatus tab CancelledText]
            ++ [SetStatusMessage "Query Cancelled"]).
    by rewrite outcomes_app, outcomes_status.
  - unfold disable_cancel_if_idle, stop_and_del_timers. rewrite Ht, He.
    case_decide; simpl; by rewrite Hq.
  - unfold disable_cancel_if_idle, stop_and_del_timers. rewrite Ht, He.
    case_decide; simpl; intros Hin;
      apply elem_of_difference in Hin as [_ Hin]; apply Hin;
      by apply elem_of_singleton.
Qed.

Lemma difference_twice_comm (A : gset nat) a b :
  A ∖ {[a]} ∖ {[b]} = A ∖ {[b]} ∖ {[a]}.
Proof. apply set_eq. intros x. rewrite !elem_of_difference. tauto. Qed.

Lemma window_eq w w' :
  tabs w = tabs w' -> running_queries w = running_queries w' ->
  tab_timers w = tab_timers w' -> active_timers w = active_timers w' ->
  timeout_slot w = timeout_slot w' -> runnables w = runnables w' ->
  pool w = pool w' -> cancel_enabled w = cancel_enabled w' ->
  spinning w = spinning w' -> next_id w = next_id w' -> w = w'.
Proof. destruct w, w'; simpl; intros; by subst. Qed.

(** The timeout timer of a tab with a query fires: the timed-out outcome, a
    free tab, and the window that the Cancel action would leave, with the
    same driver aborts. *)
Lemma fire_timeout_recorded tab r e w :
  running_queries w !! tab = Some r ->
  tab_timers w !! tab = Some e ->
  timeout_slot w !! timeout_timer e = Some (tab, r) ->
  (timeout_timer e) ∈ active_timers w ->
  let x := fire_timeout (timeout_timer e) w in
  outcomes tab (snd x) = [OnTimedOut QUERY_TIMEOUT]
  /\ running_queries (fst x) = delete tab (running_queries w)
  /\ ((timeout_timer e) ∉ active_timers (fst x))
  /\ fst x = fst (cancel_current_query (Some tab) w)
  /\ aborts (snd x) = aborts (snd (cancel_current_query (Some tab) w)).
Proof.
  intros Hr He Hs Hin. unfold fire_timeout, cancel_current_query.
  destruct (decide (timeout_timer e ∈ active_timers w)); [|contradiction].
  rewrite Hs, Hr. unfold handle_query_timeout. simpl running_queries.
  destruct (decide (running_queries w !! tab = Some r)); [|contradiction].
  unfold cancel_runnable. simpl runnables.
  destruct (runnables w !! r) as [o|].
  - destruct (cancel (r_task o)) as [t ops]. simpl fst. simpl snd.
    split; [|split; [|split; [|split]]].
    + rewrite outcomes_app, outcomes_aborts.
      change (outcomes tab
                ([SetTabStatus tab (TimedOutText QUERY_TIMEOUT)]
                 ++ [SetStatusMessage "Error occurred";
                     MessageBox "Query Timeout"])
              = [OnTimedOut QUERY_TIMEOUT]).
      by rewrite outcomes_app, outcomes_status.
    + unfold disable_cancel_if_idle, stop_progress_and_del_timers,
        stop_and_del_timers. simpl. rewrite He. by case_decide.
    + unfold disable_cancel_if_idle, stop_progress_and_del_timers. simpl.
      rewrite He. case_decide; simpl; intros Hin';
        apply elem_of_difference in Hin' as [Hin' _];
        apply elem_of_difference in Hin' as [_ Hin']; apply Hin';
        by apply elem_of_singleton.
    + unfold disable_cancel_if_idle, stop_progress_and_del_timers,
        stop_and_del_timers. simpl. rewrite He. simpl.
      case_decide; apply window_eq; simpl; try reflexivity;
        apply difference_twice_comm.
    + unfold aborts. by rewrite !List.filter_app.
  - simpl fst. simpl snd. split; [|split; [|split; [|split]]].
    + change (outcomes tab ([SetTabStatus tab (TimedOutText QUERY_TIMEOUT)]
                ++ [SetStatusMessage "Error occurred"; MessageBox "Query Timeout"])
              = [OnTimedOut QUERY_TIMEOUT]).
      by rewrite outcomes_app, outcomes_status.
    + unfold disable_cancel_if_idle, stop_progress_and_del_timers,
        stop_and_del_timers. simpl. rewrite He. by case_decide.
    + unfold disable_cancel_if_idle, stop_progress_and_del_timers. simpl.
      rewrite He. case_decide; simpl; intros Hin';
        apply elem_of_difference in Hin' as [Hin' _];
        apply elem_of_difference in Hin' as [_ Hin']; apply Hin';
        by apply elem_of_singleton.
    + unfold disable_cancel_if_idle, stop_progress_and_del_timers,
        stop_and_del_timers. simpl. rewrite He. simpl.
      case_decide; apply window_eq; simpl; try reflexivity;
        apply difference_twice_comm.
    + reflexivity.
Qed.

(** The close button of a tab with a query: nothing is shown about the
    query, and both timers are stopped. *)
Lemma close_tab_recorded index tab r e w :
  tabs w !! index = Some tab ->
  running_queries w !! tab = Some r ->
  tab_timers w !! tab = Some e ->
  outcomes tab (snd (close_tab index w)) = []
  /\ ((timeout_timer e) ∉ active_timers (fst (close_tab index w))).
Proof.
  intros Hi Hr He. unfold close_tab. rewrite Hi, Hr.
  destruct (cancel_runnable_fields r w) as (Htabs & _ & Ht & _).
  destruct (cancel_runnable_effects r w) as [ops Hops].
  destruct (cancel_runnable r w) as [w1 es]. simpl in *. subst es.
  assert (tab_timers (disable_cancel_if_idle (del_running tab w1)) !! tab
          = Some e) as He'.
  { unfold disable_cancel_if_idle. case_decide; simpl; by rewrite Ht. }
  unfold stop_and_del_timers. rewrite He'.
  case_decide; simpl; (split; [by rewrite ?outcomes_app, outcomes_aborts|]);
    intros Hin; apply elem_of_difference in Hin as [_ Hin]; apply Hin;
    by apply elem_of_singleton.
Qed.

(** The slot of [finished] on a tab whose timers are recorded: the success
    outcome, and both timers stopped. *)
Lemma handle_query_result_recorded tab e res cols n el sel w :
  tab_timers w !! tab = Some e ->
  let x := handle_query_result tab res cols n el sel w in
  outcomes tab (snd x) = [OnSuccess n]
  /\ ((timeout_timer e) ∉ active_timers (fst x)).
Proof.
  intros He. unfold handle_query_result. simpl. split.
  - destruct sel; unfold outcomes; simpl;
      destruct (decide (tab = tab)); done.
  - unfold disable_cancel_if_idle, stop_and_del_timers. rewrite He.
    case_decide; simpl; intros Hin;
      apply elem_of_difference in Hin as [_ Hin]; apply Hin;
      by apply elem_of_singleton.
Qed.

(** The slot of [error]: the error outcome, and both timers stopped. *)
Lemma handle_query_error_recorded tab e msg w :
  tab_timers w !! tab = Some e ->
  let x := handle_query_error tab msg w in
  outcomes tab (snd x) = [OnError msg]
  /\ ((timeout_timer e) ∉ active_timers (fst x)).
Proof.
  intros He. unfold handle_query_error. simpl. split.
  - unfold outcomes; simpl; destruct (decide (tab = tab)); done.
  - unfold disable_cancel_if_idle, stop_and_del_timers. rewrite He.
    case_decide; simpl; intros Hin;
      apply elem_of_difference in Hin as [_ Hin]; apply Hin;
      by apply elem_of_singleton.
Qed.

(** What an accepted click on Execute records. *)
Lemma execute_query_recorded tab editor combo item now w :
  running_queries w !! tab = None ->
  String.eqb combo "" || String.eqb (PyStr.strip editor) "" = false ->
  let w' := fst (execute_query (Some tab) editor combo item now w) in
  let r := S (S (next_id w)) in
  let e := {| timer := next_id w; start_time := now;
              timeout_timer := S (next_id w) |} in
  running_queries w' !! tab = Some r
  /\ tab_timers w' !! tab = Some e
  /\ timeout_slot w' !! timeout_timer e = Some (tab, r)
  /\ ((timeout_timer e) ∈ active_timers w')
  /\ runnables w' !! r
     = Some {| r_conn_data := item; r_query := PyStr.strip editor;
               r_task := {| _is_cancelled := false; conn := None |} |}
  /\ pool w' = pool w ++ [r].
Proof.
  intros Hfree Hin. unfold execute_query.
  destruct (decide (is_Some (running_queries w !! tab))) as [[? H]|_];
    [congruence|].
  rewrite Hin. simpl.
  repeat split; try apply lookup_insert_eq.
  apply elem_of_union_l, elem_of_union_r. by apply elem_of_singleton.
Qed.
End WindowFacts.

(** ** One submission *)
Module SessionFacts.
Import Database RunFacts TaskFacts TraceFacts MainWindow WindowFacts Session.

(** The worker's write to [self.conn] changes the runnables only. *)
Lemma set_conn_fields r k w :
  let w' := set_conn r k w in
  tabs w' = tabs w /\ running_queries w' = running_queries w
  /\ tab_timers w' = tab_timers w /\ active_timers w' = active_timers w
  /\ timeout_slot w' = timeout_slot w.
Proof. unfold set_conn. by destruct (runnables w !! r). Qed.

(** What [recorded] and [submitted] say about an accepted click. *)
Lemma recorded_facts s tab r e :
  recorded s = Some (tab, r, e) ->
  current_tab s = Some tab
  /\ running_queries (window s) !! tab = None
  /\ running_queries (fst (submit s)) !! tab = Some r
  /\ tab_timers (fst (submit s)) !! tab = Some e
  /\ timeout_slot (fst (submit s)) !! timeout_timer e = Some (tab, r)
  /\ ((timeout_timer e) ∈ active_timers (fst (submit s)))
  /\ runnables (fst (submit s)) !! r
     = Some {| r_conn_data := item_data s; r_query := PyStr.strip (editor s);
               r_task := {| _is_cancelled := false; conn := None |} |}
  /\ pool (fst (submit s)) = pool (window s) ++ [r].
Proof.
  unfold recorded. destruct (current_tab s) as [tb|] eqn:Hcur; [|discriminate].
  destruct (running_queries (window s) !! tb) eqn:Hfree; [discriminate|].
  destruct (running_queries (fst (submit s)) !! tb) as [r'|] eqn:Hr;
    [|discriminate].
  destruct (tab_timers (fst (submit s)) !! tb) as [e'|] eqn:He;
    [|discriminate].
  intros [= -> -> ->]. unfold submit in *. rewrite Hcur in *.
  destruct (String.eqb (combo s) "" || String.eqb (PyStr.strip (editor s)) "")
    eqn:Hin.
  { exfalso. revert Hr. unfold execute_query.
    destruct (decide (is_Some (running_queries (window s) !! tab))) as [[? H]|_];
      [congruence|].
    rewrite Hin. simpl. congruence. }
  destruct (execute_query_recorded tab (editor s) (combo s) (item_data s)
              (now s) (window s) Hfree Hin) as (H1 & H2 & H3 & H4 & H5 & H6).
  rewrite Hr in H1. rewrite He in H2. injection H1 as ->. injection H2 as ->.
  repeat split; assumption.
Qed.

Lemma submitted_facts s o :
  submitted s = Some o ->
  exists tab r e,
    recorded s = Some (tab, r, e)
    /\ o = {| r_conn_data := item_data s; r_query := PyStr.strip (editor s);
              r_task := {| _is_cancelled := false; conn := None |} |}.
Proof.
  unfold submitted. destruct (recorded s) as [[[tab r] e]|] eqn:Hrec;
    [|discriminate].
  intros Ho. exists tab, r, e. split; [reflexivity|].
  destruct (recorded_facts s tab r e Hrec) as (_ & _ & _ & _ & _ & _ & H & _).
  congruence.
Qed.

(** The session of a submission that a request reached and whose worker
    emits nothing: the handler of the request, and no timer left to fire. *)
Lemma session_silent_eq s c t o tab r e :
  recorded s = Some (tab, r, e) ->
  submitted s = Some o ->
  cancel_req s = Some (c, t) ->
  signals (worker s o) = [] ->
  let x := request s c tab (timeout_timer e)
             (set_conn r (published_at t (worker s o)) (fst (submit s))) in
  session s = (fst x, snd x ++ [])
  /\ outcomes tab (snd x)
     = match c with
       | ByUser => [OnCancelled]
       | ByWatchdog => [OnTimedOut QUERY_TIMEOUT]
       | ByCloseTab => []
       end.
Proof.
  intros Hrec Hs Hc Hq.
  destruct (recorded_facts s tab r e Hrec)
    as (Hcur & _ & Hr & He & Hslot & Hact & _).
  destruct (set_conn_fields r (published_at t (worker s o)) (fst (submit s)))
    as (Htabs & Hrq & Htt & Hat & Hts).
  set (w := set_conn r (published_at t (worker s o)) (fst (submit s))) in *.
  assert (running_queries w !! tab = Some r) as Hr' by (by rewrite Hrq).
  assert (tab_timers w !! tab = Some e) as He' by (by rewrite Htt).
  assert (((timeout_timer e)
             ∉ active_timers (fst (request s c tab (timeout_timer e) w)))
          /\ outcomes tab (snd (request s c tab (timeout_timer e) w))
             = match c with
               | ByUser => [OnCancelled]
               | ByWatchdog => [OnTimedOut QUERY_TIMEOUT]
               | ByCloseTab => []
               end) as [Hstop Hout].
  { destruct c; simpl request.
    - destruct (cancel_current_query_recorded tab r e w Hr' He')
        as (H1 & _ & H3). by split.
    - destruct (fire_timeout_recorded tab r e w Hr' He') as (H1 & _ & H3 & _);
        [by rewrite Hts | by rewrite Hat | by split].
    - destruct (close_tab_recorded (tab_index s) tab r e w) as (H1 & H2);
        [| assumption | assumption | by split].
      rewrite Htabs. unfold submit, execute_query. rewrite Hcur.
      repeat case_match; exact Hcur. }
  split; [|exact Hout].
  unfold session. rewrite Hrec, Hs, Hc, Hq. fold w. simpl foldl.
  unfold and_then. rewrite (fire_timeout_stopped _ _ Hstop). reflexivity.
Qed.

Lemma session_silent s c t o :
  submitted s = Some o ->
  cancel_req s = Some (c, t) ->
  signals (worker s o) = [] ->
  notifications s =
  match c with
  | ByUser => [OnCancelled]
  | ByWatchdog => [OnTimedOut QUERY_TIMEOUT]
  | ByCloseTab => []
  end.
Proof.
  intros Hs Hc Hq.
  destruct (submitted_facts s o Hs) as (tab & r & e & Hrec & _).
  destruct (recorded_facts s tab r e Hrec) as (Hcur & _).
  destruct (session_silent_eq s c t o tab r e Hrec Hs Hc Hq) as [Heq Hout].
  unfold notifications. rewrite Hcur, Heq. simpl snd.
  by rewrite app_nil_r.
Qed.

(** Without a request, a submission ends in one notification: the result,
    the error, or, when the worker emitted nothing, the timeout. *)
Lemma one_notification_without_request s o :
  submitted s = Some o ->
  cancel_req s = None ->
  length (notifications s) = 1%nat.
Proof.
  intros Hs Hc.
  destruct (submitted_facts s o Hs) as (tab & r & e & Hrec & _).
  destruct (recorded_facts s tab r e Hrec)
    as (Hcur & _ & Hr & He & Hslot & Hact & _).
  pose proof (signals_shape (driver s) (r_conn_data o) (r_query o) None) as Hq.
  unfold notifications, session. rewrite Hcur, Hrec, Hs, Hc.
  unfold worker. rewrite Hc. simpl fmap.
  destruct Hq as [-> | [[[[res cols] n] ->] | [m ->]]]; cbn [foldl];
    unfold and_then; cbn [fst snd].
  - destruct (fire_timeout_recorded tab r e _ Hr He Hslot Hact) as (H1 & _).
    destruct (fire_timeout (timeout_timer e) (fst (submit s))) as [w es].
    cbn [fst snd app] in *. by rewrite H1.
  - unfold finished, deliver.
    destruct (handle_query_result_recorded tab e res cols n
                (time_end (driver s) - time_start (driver s))
                (is_select_query (r_query o)) _ He) as (H1 & H2).
    destruct (handle_query_result tab res cols n _ _ (fst (submit s)))
      as [w es]. cbn [fst snd app] in *.
    rewrite (fire_timeout_stopped _ _ H2). cbn [fst snd].
    by rewrite app_nil_r, H1.
  - unfold deliver.
    destruct (handle_query_error_recorded tab e m _ He) as (H1 & H2).
    destruct (handle_query_error tab m (fst (submit s))) as [w es].
    cbn [fst snd app] in *. rewrite (fire_timeout_stopped _ _ H2).
    cbn [fst snd]. by rewrite app_nil_r, H1.
Qed.

(** A request that the worker sees at its last check or before leaves one
    notification, that of the request, when it comes from the Cancel action
    or from the timeout timer. *)
Lemma one_notification_when_seen s c t o :
  submitted s = Some o ->
  cancel_req s = Some (c, t) ->
  (t <= 104)%nat ->
  c <> ByCloseTab ->
  length (notifications s) = 1%nat.
Proof.
  intros Hs Hc Ht Hn.
  rewrite (session_silent s c t o Hs Hc).
  - by destruct c.
  - unfold worker. rewrite Hc. by apply silent_when_cancelled.
Qed.

Lemma recorded_with_cancel_req r s :
  recorded (with_cancel_req r s) = recorded s.
Proof. reflexivity. Qed.

Lemma submitted_with_cancel_req r s :
  submitted (with_cancel_req r s) = submitted s.
Proof. reflexivity. Qed.

Lemma worker_with_cancel_req c c' t s o :
  cancel_req s = Some (c, t) ->
  worker (with_cancel_req (Some (c', t)) s) o = worker s o.
Proof. intros H. unfold worker. rewrite H. reflexivity. Qed.
End SessionFacts.

(** * The claims of the specification *)

Import PyStr Database MainWindow Session Examples.
Import PyStrFacts RunFacts TaskFacts TraceFacts WindowFacts SessionFacts.

(** The classification examples of the specification. *)
Example classify_select_upper : is_select_query "SELECT * FROM t" = true.
Proof. reflexivity. Qed.

Example classify_select_padded : is_select_query "  select 1" = true.
Proof. reflexivity. Qed.

Example classify_update : is_select_query "UPDATE t SET x=1" = false.
Proof. reflexivity. Qed.

(** C1: exactly one terminal notification per submit.  The code breaks it in
    both directions.  A query submitted on the only worksheet and stopped by
    the close button of the tab ends with no terminal notification: [close_tab]
    cancels the task and stops both timers before it refuses to close the
    tab.  A query whose worker has passed its last check (line 104) when the
    Cancel action runs ends with two: "Query cancelled by user." and then the
    result. *)
Theorem notification_lost_or_doubled :
  notifications (scenario ok_driver "select 1" (Some (ByCloseTab, 80))) = []
  /\ notifications (scenario ok_driver "select 1" (Some (ByUser, 107)))
     = [OnCancelled; OnSuccess 2].
Proof. split; reflexivity. Qed.

(** C2: an exception of the classes caught at line 111, raised while the
    flag is set, is never shown as an error: the worker emits no signal, no
    error notification reaches the window, and when the flag was set by the
    Cancel action the caller sees the cancelled outcome and nothing else. *)
Theorem interrupted_while_cancelled_is_not_an_error s c t o e :
  submitted s = Some o ->
  cancel_req s = Some (c, t) ->
  raised (driver s) (r_conn_data o) (r_query o) (Some t) = Some e ->
  is_cancel_class e = true ->
  (t <= 116)%nat ->
  signals (worker s o) = []
  /\ (forall msg, ~ In (OnError msg) (notifications s))
  /\ (c = ByUser -> notifications s = [OnCancelled]).
Proof.
  intros Hs Hc Hr _ Ht.
  assert (signals (worker s o) = []) as Hq.
  { unfold worker. rewrite Hc. simpl.
    rewrite (signals_raised _ _ _ _ _ Hr).
    apply handler_cancelled, is_cancelled_at, Ht. }
  split; [exact Hq|].
  rewrite (session_silent s c t o Hs Hc Hq). split.
  - intros msg H. destruct c; simpl in H; intuition discriminate.
  - by intros ->.
Qed.

Lemma interrupted_while_cancelled_is_not_an_error_witness :
  raised (failing_driver interrupted) sqlite_descriptor "select 1" (Some 80)
  = Some interrupted
  /\ signals (worker (scenario (failing_driver interrupted) "select 1"
                        (Some (ByUser, 80))) select_runnable) = []
  /\ (forall msg,
        ~ In (OnError msg)
            (notifications (scenario (failing_driver interrupted) "select 1"
                              (Some (ByUser, 80)))))
  /\ (ByUser = ByUser ->
      notifications (scenario (failing_driver interrupted) "select 1"
                       (Some (ByUser, 80))) = [OnCancelled]).
Proof.
  split; [reflexivity|].
  apply (interrupted_while_cancelled_is_not_an_error
           (scenario (failing_driver interrupted) "select 1" (Some (ByUser, 80)))
           ByUser 80 select_runnable interrupted);
    [reflexivity | reflexivity | reflexivity | reflexivity | vm_compute; lia].
Defined.

(** C3: the connection is closed exactly once on every path.  When the
    cancellation is seen at line 76, just after [connect] returned, the code
    closes the connection at line 77 and again at line 125. *)
Theorem connection_closed_twice :
  run ok_driver sqlite_descriptor "select 1" (Some 60)
  = [SqliteConnect (PyStr "a.db"); Close; Unpublish; Close]
  /\ count is_close (run ok_driver sqlite_descriptor "select 1" (Some 60)) = 2%nat.
Proof. split; reflexivity. Qed.

(** C4: a statement is row-returning exactly when its text, trimmed and
    lower-cased, starts with "select".  A statement that is not row-returning
    is committed right after [execute]; the row count it reports is the
    driver's, or zero when the driver answers -1.  A row-returning statement
    is never committed. *)
Theorem select_prefix_classifies driver cd q c :
  In (Execute q) (run driver cd q c) ->
  execute driver q = None ->
  is_cancelled c 85 = false ->
  is_select_query q = Spec.row_returning q /\
  if Spec.row_returning q
  then ~ In Commit (run driver cd q c)
  else
    (rowcount driver = (-1)%Z -> clamped_rowcount driver = 0%Z) /\
    (rowcount driver <> (-1)%Z -> clamped_rowcount driver = rowcount driver) /\
    exists pre post,
      run driver cd q c = pre ++ Execute q :: Commit :: post /\
      ~ In Commit pre /\
      (commit driver = None -> is_cancelled c 104 = false ->
       post = [EmitFinished [] [] (clamped_rowcount driver)
                 (time_end driver - time_start driver) false;
               Unpublish; Close]).
Proof.
  intros Hin Hex H85. split; [apply is_select_query_spec|].
  apply run_executed in Hin as [o [Ho Hrun]].
  rewrite Hex in Hrun. unfold after_execute in Hrun.
  rewrite H85, collect_eq, is_select_query_spec in Hrun.
  destruct (Spec.row_returning q) eqn:Hsel.
  - rewrite Hrun. intros H.
    destruct (description_truthy driver), (is_cancelled c 96),
      (is_cancelled c 104); try destruct (fetchall driver);
      unfold finished in H; refute_in H.
  - split; [|split].
    + unfold clamped_rowcount. intros ->. reflexivity.
    + unfold clamped_rowcount. intros H.
      destruct (rowcount driver =? -1)%Z eqn:E; [|reflexivity].
      apply Z.eqb_eq in E. contradiction.
    + exists [o; Publish (db_type cd); Cursor].
      destruct (commit driver) as [e|].
      * eexists. split; [rewrite Hrun; reflexivity|].
        split; [|discriminate].
        intros H; refute_in H.
      * eexists. split; [rewrite Hrun; reflexivity|].
        split.
        { intros H; refute_in H. }
        intros _ ->. unfold finished.
        rewrite is_select_query_spec, Hsel. reflexivity.
Qed.

Lemma select_prefix_classifies_witness :
  In (Execute "UPDATE t SET x=1")
     (run ok_driver sqlite_descriptor "UPDATE t SET x=1" None)
  /\ is_select_query "UPDATE t SET x=1" = Spec.row_returning "UPDATE t SET x=1"
  /\ if Spec.row_returning "UPDATE t SET x=1"
     then ~ In Commit (run ok_driver sqlite_descriptor "UPDATE t SET x=1" None)
     else
       (rowcount ok_driver = (-1)%Z -> clamped_rowcount ok_driver = 0%Z) /\
       (rowcount ok_driver <> (-1)%Z ->
        clamped_rowcount ok_driver = rowcount ok_driver) /\
       exists pre post,
         run ok_driver sqlite_descriptor "UPDATE t SET x=1" None
         = pre ++ Execute "UPDATE t SET x=1" :: Commit :: post /\
         ~ In Commit pre /\
         (commit ok_driver = None -> is_cancelled None 104 = false ->
          post = [EmitFinished [] [] (clamped_rowcount ok_driver)
                    (time_end ok_driver - time_start ok_driver) false;
                  Unpublish; Close]).
Proof.
  split; [vm_compute; tauto|].
  apply (select_prefix_classifies ok_driver sqlite_descriptor
           "UPDATE t SET x=1" None);
    [vm_compute; tauto | reflexivity | reflexivity].
Defined.

(** C5: a submit on a tab that already has a query recorded is rejected with
    the "Query in Progress" warning; the window, and with it the running
    task, the timers, the pool and the set of runnables, is left as it was. *)
Theorem busy_slot_rejects w tab r editor combo item now :
  running_queries w !! tab = Some r ->
  execute_query (Some tab) editor combo item now w
  = (w, [MessageBox "Query in Progress"]).
Proof.
  intros H. unfold execute_query.
  destruct (decide (is_Some (running_queries w !! tab))) as [_|Hn];
    [reflexivity|].
  exfalso. apply Hn. by exists r.
Qed.

Lemma busy_slot_rejects_witness :
  running_queries busy_window !! 0 = Some 3
  /\ execute_query (Some 0) "select 2" "x" sqlite_descriptor 5 busy_window
     = (busy_window, [MessageBox "Query in Progress"]).
Proof.
  split; [reflexivity|].
  apply (busy_slot_rejects busy_window 0 3). reflexivity.
Defined.

(** C6: when the timeout timer fires no later than the worker's last check,
    the caller sees the timed-out outcome with the 60 000 ms duration and
    nothing else; the window ends as after the Cancel action, with the same
    driver aborts; and the tab is free, so the next submit is accepted. *)
Theorem watchdog_times_out s t o :
  submitted s = Some o ->
  cancel_req s = Some (ByWatchdog, t) ->
  (t <= 104)%nat ->
  notifications s = [OnTimedOut 60000]
  /\ fst (session s) = fst (session (with_cancel_req (Some (ByUser, t)) s))
  /\ aborts (snd (session s))
     = aborts (snd (session (with_cancel_req (Some (ByUser, t)) s)))
  /\ exists tab,
       current_tab s = Some tab
       /\ running_queries (fst (session s)) !! tab = None
       /\ forall editor' combo' item' now',
            combo' <> "" -> PyStr.strip editor' <> "" ->
            exists r,
              let w' := fst (execute_query (Some tab) editor' combo' item' now'
                               (fst (session s))) in
              running_queries w' !! tab = Some r
              /\ pool w' = pool (fst (session s)) ++ [r].
Proof.
  intros Hs Hc Ht.
  assert (signals (worker s o) = []) as Hq.
  { unfold worker. rewrite Hc. by apply silent_when_cancelled. }
  destruct (submitted_facts s o Hs) as (tab & r & e & Hrec & _).
  destruct (recorded_facts s tab r e Hrec)
    as (Hcur & _ & Hr & He & Hslot & Hact & _).
  destruct (session_silent_eq s ByWatchdog t o tab r e Hrec Hs Hc Hq)
    as [Heq _].
  destruct (session_silent_eq (with_cancel_req (Some (ByUser, t)) s) ByUser t o
              tab r e Hrec Hs eq_refl) as [Heq' _].
  { by rewrite (worker_with_cancel_req _ ByUser _ _ _ Hc). }
  rewrite (worker_with_cancel_req _ ByUser _ _ _ Hc) in Heq'.
  change (submit (with_cancel_req (Some (ByUser, t)) s)) with (submit s) in Heq'.
  cbn [request] in Heq, Heq'.
  destruct (set_conn_fields r (published_at t (worker s o)) (fst (submit s)))
    as (_ & Hrq & Htt & Hat & Hts).
  set (w := set_conn r (published_at t (worker s o)) (fst (submit s))) in *.
  destruct (fire_timeout_recorded tab r e w) as (_ & H2 & _ & H4 & H5);
    [by rewrite Hrq | by rewrite Htt | by rewrite Hts | by rewrite Hat |].
  assert (running_queries (fst (session s)) !! tab = None) as Hfree.
  { rewrite Heq. cbn [fst]. rewrite H2. apply lookup_delete_eq. }
  split; [|split; [|split]].
  - by rewrite (session_silent s _ _ _ Hs Hc Hq).
  - rewrite Heq, Heq'. exact H4.
  - rewrite Heq, Heq'. cbn [snd]. by rewrite !app_nil_r.
  - exists tab. split; [exact Hcur|]. split; [exact Hfree|].
    intros editor' combo' item' now' Hcombo Hed.
    destruct (free_slot_accepts (fst (session s)) tab editor' combo' item' now'
                Hfree Hcombo Hed) as (H1' & H2' & _).
    eexists. split; [exact H1' | exact H2'].
Qed.

Lemma watchdog_times_out_witness :
  submitted (scenario ok_driver "select 1" (Some (ByWatchdog, 80)))
  = Some select_runnable
  /\ notifications (scenario ok_driver "select 1" (Some (ByWatchdog, 80)))
     = [OnTimedOut 60000]
  /\ fst (session (scenario ok_driver "select 1" (Some (ByWatchdog, 80))))
     = fst (session (scenario ok_driver "select 1" (Some (ByUser, 80)))).
Proof.
  split; [reflexivity|].
  destruct (watchdog_times_out
              (scenario ok_driver "select 1" (Some (ByWatchdog, 80))) 80
              select_runnable) as (H1 & H2 & _);
    [reflexivity | reflexivity | vm_compute; lia |].
  split; [exact H1 | exact H2].
Defined.

(** C7: a task cancelled before its first check (line 55) only unpublishes
    the handle: it calls no connect, and the caller, who cancelled through the
    Cancel action, sees the cancelled outcome and nothing else. *)
Theorem cancelled_before_start_never_connects s c t o :
  submitted s = Some o ->
  cancel_req s = Some (c, t) ->
  (t <= 55)%nat ->
  worker s o = [Unpublish]
  /\ (forall op, In op (worker s o) -> is_connect op = false)
  /\ (c = ByUser -> notifications s = [OnCancelled]).
Proof.
  intros Hs Hc Ht.
  assert (worker s o = [Unpublish]) as Hw.
  { unfold worker. rewrite Hc. by apply cancelled_before_start. }
  split; [exact Hw|]. split.
  - rewrite Hw. intros op [<-|[]]. reflexivity.
  - intros ->. rewrite (session_silent s ByUser t o Hs Hc); [reflexivity|].
    by rewrite Hw.
Qed.

Lemma cancelled_before_start_never_connects_witness :
  submitted (scenario ok_driver "select 1" (Some (ByUser, 10)))
  = Some select_runnable
  /\ worker (scenario ok_driver "select 1" (Some (ByUser, 10))) select_runnable
     = [Unpublish]
  /\ notifications (scenario ok_driver "select 1" (Some (ByUser, 10)))
     = [OnCancelled].
Proof.
  split; [reflexivity|].
  destruct (cancelled_before_start_never_connects
              (scenario ok_driver "select 1" (Some (ByUser, 10))) ByUser 10
              select_runnable) as (H1 & _ & H3);
    [reflexivity | reflexivity | vm_compute; lia |].
  split; [exact H1 | exact (H3 eq_refl)].
Defined.

(** C8: an exception of the classes caught at line 111 whose message, lower
    cased, contains "interrupted" or "canceled" makes the worker emit no
    signal, whatever the flag is, also when it was never set. *)
Theorem sniffed_message_is_swallowed driver cd q c e :
  raised driver cd q c = Some e ->
  is_cancel_class e = true ->
  (exists a b, PyStr.lower (exc_str e) = a +:+ "interrupted" +:+ b)
  \/ (exists a b, PyStr.lower (exc_str e) = a +:+ "canceled" +:+ b) ->
  signals (run driver cd q c) = [].
Proof.
  intros Hr Hc Hm. rewrite (signals_raised _ _ _ _ _ Hr).
  apply handler_sniffed; [exact Hc|].
  unfold message_sniffed. apply orb_true_iff.
  destruct Hm as [Hm|Hm]; [left|right]; apply contains_spec; exact Hm.
Qed.

Lemma sniffed_message_is_swallowed_witness :
  raised (failing_driver no_such_table) sqlite_descriptor
    "select * from canceled_orders" None = Some no_such_table
  /\ signals (run (failing_driver no_such_table) sqlite_descriptor
                "select * from canceled_orders" None) = [].
Proof.
  split; [reflexivity|].
  apply (sniffed_message_is_swallowed (failing_driver no_such_table)
           sqlite_descriptor "select * from canceled_orders" None no_such_table);
    [reflexivity | reflexivity |].
  right. exists "no such table: ", "_orders". reflexivity.
Defined.

(** The same exception for a submission that nobody cancels: the error is
    never shown, and the caller is told of a timeout once the timer fires. *)
Example swallowed_error_ends_as_timeout :
  notifications (scenario (failing_driver no_such_table)
                   "select * from canceled_orders" None)
  = [OnTimedOut 60000].
Proof. reflexivity. Qed.

(** C9: an absent or empty descriptor raises [ConnectionError] before any
    connect call.  Otherwise the backend is the file one exactly when the
    descriptor has a [db_path] with a truthy value, whatever the other fields
    hold: the run then starts with [sqlite.connect] on that path and makes no
    other connect call; else no [sqlite.connect] is ever called, and
    [psycopg2.connect] is the first call once its five arguments evaluate. *)
Theorem backend_selection driver cd q c :
  is_cancelled c 55 = false ->
  (cd = None \/ cd = Some ∅ ->
   raised driver cd q c = Some conn_error /\
   forall o, In o (run driver cd q c) -> is_connect o = false) /\
  (cd <> None -> cd <> Some ∅ ->
   (db_type cd = SqliteConn <->
    exists d v, cd = Some d /\ d !! "db_path" = Some v /\ truthy v = true) /\
   match db_type cd with
   | SqliteConn =>
       exists v post,
         getitem cd "db_path" = inl v /\
         run driver cd q c = SqliteConnect v :: post /\
         forall o, In o post -> is_connect o = false
   | PgConn =>
       (forall v, ~ In (SqliteConnect v) (run driver cd q c)) /\
       forall h db u pw pv p,
         getitem cd "host" = inl h -> getitem cd "database" = inl db ->
         getitem cd "user" = inl u -> getitem cd "password" = inl pw ->
         getitem cd "port" = inl pv -> py_int driver pv = inl p ->
         exists post,
           run driver cd q c = PgConnect h db u pw p :: post /\
           forall o, In o post -> is_connect o = false
   end).
Proof.
  intros H55. split.
  - intros Hf.
    assert (conn_data_falsy cd = true) as Hf'.
    { destruct Hf as [-> | ->]; [reflexivity|]. by apply bool_decide_eq_true. }
    split; [by apply raised_falsy|].
    rewrite run_eq, H55, Hf'. intros o H. split_in H; by subst.
  - intros Hn He.
    assert (conn_data_falsy cd = false) as Hf.
    { destruct cd as [d|]; [|done]. apply bool_decide_eq_false. congruence. }
    split; [apply db_type_sqlite_iff|].
    rewrite run_eq, H55, Hf.
    destruct (db_type cd) eqn:Hk.
    + apply db_type_sqlite_iff in Hk as Hk'.
      destruct Hk' as (d & v & -> & Hv & Ht).
      exists v. unfold connect. rewrite Hk.
      unfold getitem, bind, lift, call, do, ret, raise, leave, set_local_conn.
      rewrite Hv. cbv beta iota.
      destruct (sqlite_connect driver v) as [e|]; cbv beta iota.
      * eexists. split; [reflexivity|]. split; [reflexivity|].
        intros o H. split_in H; by subst.
      * eexists. split; [reflexivity|]. split; [reflexivity|].
        intros o H. simpl in H. by apply in_after_connect in H.
    + split.
      * intros v H.
        pose proof (connect_cases driver cd None) as Hc.
        destruct (connect driver cd None) as [[tr lc] r] eqn:Hcon.
        assert (~ In (SqliteConnect v) tr) as Htr.
        { revert Hcon. unfold connect. rewrite Hk.
          unfold bind, lift, call, do, ret, raise, leave, set_local_conn.
          repeat match goal with
                 | |- context [match ?x with inl _ => _ | inr _ => _ end] =>
                     destruct x
                 | |- context [pg_connect ?d ?a ?b ?c ?e ?f] =>
                     destruct (pg_connect d a b c e f)
                 end; cbv beta iota; intros [= <- <- <-] Hin;
            split_in Hin; discriminate. }
        inversion Hc; subst; apply in_app_or in H as [H|H]; try done;
          try (split_in H; discriminate).
        apply in_after_connect in H. discriminate.
      * intros h db u pw pv p Hh Hdb Hu Hpw Hpv Hp.
        unfold connect. rewrite Hk.
        unfold bind, lift, call, do, ret, raise, leave, set_local_conn.
        rewrite Hh, Hdb, Hu, Hpw, Hpv, Hp. cbv beta iota.
        destruct (pg_connect driver h db u pw p) as [e|]; cbv beta iota.
        -- eexists. split; [reflexivity|].
           intros o H. split_in H; by subst.
        -- eexists. split; [reflexivity|].
           intros o H. simpl in H. by apply in_after_connect in H.
Qed.

Lemma backend_selection_witness :
  db_type full_descriptor = SqliteConn
  /\ exists v post,
       getitem full_descriptor "db_path" = inl v /\
       run ok_driver full_descriptor "select 1" None = SqliteConnect v :: post /\
       forall o, In o post -> is_connect o = false.
Proof.
  split; [reflexivity|].
  destruct (backend_selection ok_driver full_descriptor "select 1" None
              eq_refl) as [_ H].
  destruct H as [_ H]; [discriminate | vm_compute; discriminate |].
  exact H.
Defined.

(** C10: a row-returning statement whose cursor has no description (it is
    [None] or empty) still ends in [finished], with no column, no row and a
    row count of zero; [fetchall] is not called and no error is emitted. *)
Theorem select_without_description driver cd q c :
  In (Execute q) (run driver cd q c) ->
  execute driver q = None ->
  is_select_query q = true ->
  description driver = None \/ description driver = Some [] ->
  is_cancelled c 104 = false ->
  (exists o,
     is_connect o = true /\
     run driver cd q c
     = [o; Publish (db_type cd); Cursor; Execute q;
        EmitFinished [] [] 0 (time_end driver - time_start driver) true;
        Unpublish; Close]) /\
  signals (run driver cd q c)
  = [EmitFinished [] [] 0 (time_end driver - time_start driver) true] /\
  ~ In Fetchall (run driver cd q c).
Proof.
  intros Hin Hex Hsel Hdesc H104.
  pose proof (is_cancelled_before c 85 104 ltac:(lia) H104) as H85.
  assert (description_truthy driver = false) as Hd.
  { unfold description_truthy. by destruct Hdesc as [-> | ->]. }
  apply run_executed in Hin as [o [Ho Hrun]].
  rewrite Hex in Hrun. unfold after_execute in Hrun.
  rewrite H85, collect_eq, Hsel, Hd, H104 in Hrun.
  unfold finished in Hrun. rewrite Hsel in Hrun. simpl in Hrun.
  rewrite Hrun. split; [|split].
  - exists o. split; [exact Ho | reflexivity].
  - unfold signals. simpl. by rewrite (is_connect_not_signal o Ho).
  - intros H. refute_in H.
Qed.

Lemma select_without_description_witness :
  description bare_driver = None
  /\ signals (run bare_driver sqlite_descriptor "select 1" None)
     = [EmitFinished [] [] 0 2 true]
  /\ ~ In Fetchall (run bare_driver sqlite_descriptor "select 1" None).
Proof.
  split; [reflexivity|].
  destruct (select_without_description bare_driver sqlite_descriptor
              "select 1" None) as (_ & H1 & H2);
    [vm_compute; tauto | reflexivity | reflexivity | left; reflexivity
    | reflexivity |].
  split; [exact H1 | exact H2].
Defined.
